(** * A shallow embedding of [smpp-server.py]

    The PDU codec ([SMPPPDU.encode], [SMPPServerProtocol.parse_pdu]) and the
    per-connection protocol object ([SMPPServerProtocol]) are embedded as
    executable definitions.  Python integers are [Z]; a [bytes] value is a
    [list byte]; an exception is a value of [exn] carried by [result]; the
    methods that mutate [self] or call the transport live in a small
    state-and-exception monad [M]. *)

From Stdlib Require Import Ascii String ZArith List Bool Lia.
From Stdlib Require Import Strings.Byte Strings.HexString.
Import ListNotations.

Local Open Scope Z_scope.

(** ** Exceptions and results *)

Inductive exn : Type :=
| ValueError       (* raise ValueError("PDU too short") *)
| StructError      (* struct.error: value out of range, or wrong buffer size *)
| KeyError         (* a missing dictionary key *)
| AttributeError.  (* a method called on [None] *)

Inductive result (A : Type) : Type :=
| Ok (a : A)
| Raise (e : exn).
Arguments Ok {A} a.
Arguments Raise {A} e.

Definition rbind {A B : Type} (r : result A) (k : A -> result B) : result B :=
  match r with
  | Ok a => k a
  | Raise e => Raise e
  end.

Declare Scope result_scope.
Delimit Scope result_scope with result.
Notation "'let?' x ':=' r 'in' k" := (rbind r (fun x => k))
  (at level 10, x pattern, r at level 100, k at level 200) : result_scope.

(** ** Bytes *)

Definition bytes := list byte.

Definition Z_of_byte (b : byte) : Z := Z.of_N (Byte.to_N b).

(** The byte of value [z], for [0 <= z < 256] (every use below reduces modulo
    256 first). *)
Definition byte_of_Z (z : Z) : byte :=
  match Byte.of_N (Z.to_N z) with
  | Some b => b
  | None => x00
  end.

(** [len(data)] *)
Definition len {A : Type} (l : list A) : Z := Z.of_nat (length l).

(** [data[lo:hi]] for non-negative [lo] and [hi]: both ends are clamped to the
    length of [data], and the slice is empty when [hi <= lo]. *)
Definition slice {A : Type} (lo hi : Z) (data : list A) : list A :=
  firstn (Z.to_nat (hi - lo)) (skipn (Z.to_nat lo) data).

(** ** [struct.pack] and [struct.unpack] with format ['!IIII'] *)

Definition U32_MAX : Z := 0xFFFFFFFF.

Definition in_u32 (v : Z) : bool := (0 <=? v) && (v <=? U32_MAX).

(** One ['I'] field in network (big-endian) order: the four base-256 digits of
    [v], most significant first; [struct.error] outside [0 .. 2^32 - 1]. *)
Definition pack_I (v : Z) : result bytes :=
  if in_u32 v then
    Ok [ byte_of_Z (v / 2 ^ 24 mod 256);
         byte_of_Z (v / 2 ^ 16 mod 256);
         byte_of_Z (v / 2 ^ 8 mod 256);
         byte_of_Z (v mod 256) ]
  else Raise StructError.

Definition unpack_I (b0 b1 b2 b3 : byte) : Z :=
  Z_of_byte b0 * 2 ^ 24 + Z_of_byte b1 * 2 ^ 16 + Z_of_byte b2 * 2 ^ 8
  + Z_of_byte b3.

Definition pack_IIII (a b c d : Z) : result bytes :=
  (let? pa := pack_I a in
   let? pb := pack_I b in
   let? pc := pack_I c in
   let? pd := pack_I d in
   Ok (pa ++ pb ++ pc ++ pd))%result.

(** [struct.unpack('!IIII', buf)] needs a buffer of exactly 16 bytes. *)
Definition unpack_IIII (buf : bytes) : result (Z * Z * Z * Z) :=
  match buf with
  | [a0; a1; a2; a3; b0; b1; b2; b3; c0; c1; c2; c3; d0; d1; d2; d3] =>
      Ok (unpack_I a0 a1 a2 a3, unpack_I b0 b1 b2 b3,
          unpack_I c0 c1 c2 c3, unpack_I d0 d1 d2 d3)
  | _ => Raise StructError
  end.

(** ** [SMPP_COMMANDS] *)

Definition dict (K V : Type) := list (K * V).

(** [d[k]]: the value bound to [k], or [KeyError]. *)
Fixpoint getitem {K V : Type} (eqb : K -> K -> bool) (d : dict K V) (k : K)
  : result V :=
  match d with
  | [] => Raise KeyError
  | (k', v) :: d' => if eqb k' k then Ok v else getitem eqb d' k
  end.

Local Open Scope string_scope.

Definition SMPP_COMMANDS : dict string Z :=
  [ ("bind_receiver", 0x00000001);
    ("bind_transmitter", 0x00000002);
    ("bind_transceiver", 0x00000009);
    ("submit_sm", 0x00000004);
    ("deliver_sm", 0x00000005);
    ("unbind", 0x00000006);
    ("generic_nack", 0x80000000);
    ("bind_receiver_resp", 0x80000001);
    ("bind_transmitter_resp", 0x80000002);
    ("bind_transceiver_resp", 0x80000009);
    ("submit_sm_resp", 0x80000004);
    ("deliver_sm_resp", 0x80000005);
    ("unbind_resp", 0x80000006) ].

Local Close Scope string_scope.

(** [SMPP_COMMANDS[name]] *)
Definition SMPP_COMMANDS_at (name : string) : result Z :=
  getitem String.eqb SMPP_COMMANDS name.

(** ** [class SMPPPDU] *)

Module SMPPPDU.

Record t : Type := mk {
  command_id : Z;
  command_status : Z;
  sequence_number : Z;
  body : bytes
}.

(** [SMPPPDU.encode] *)
Definition encode (self : t) : result bytes :=
  let length := 16 + len (body self) in  (* 16 bytes header + body *)
  (let? header := pack_IIII length (command_id self) (command_status self)
                    (sequence_number self) in
   Ok (header ++ body self))%result.

End SMPPPDU.

(** [SMPPServerProtocol.parse_pdu]; it reads no attribute of [self]. *)
Definition parse_pdu (data : bytes) : result SMPPPDU.t :=
  if len data <? 16 then Raise ValueError
  else
    (let? (length, command_id, command_status, sequence_number) :=
       unpack_IIII (slice 0 16 data) in
     let body := slice 16 length data in
     Ok (SMPPPDU.mk command_id command_status sequence_number body))%result.

(** [n] characters ['0']. *)
Fixpoint zeros (n : nat) : string :=
  match n with
  | O => EmptyString
  | S n' => String "0"%char (zeros n')
  end.

(** [f"{v:08x}"]: lower-case hexadecimal digits, zero-padded to 8 characters,
    the sign of a negative value taking one of them. *)
Definition format_08x (v : Z) : string :=
  match v with
  | Z0 => zeros 8
  | Zpos p =>
      let digits := HexString.Raw.of_pos p EmptyString in
      (zeros (8 - String.length digits) ++ digits)%string
  | Zneg p =>
      let digits := HexString.Raw.of_pos p EmptyString in
      String "-"%char (zeros (7 - String.length digits) ++ digits)%string
  end.

(** [SMPPServerProtocol.command_id_to_name]: the first name of
    [SMPP_COMMANDS], in insertion order, bound to [command_id]. *)
Definition command_id_to_name (command_id : Z) : string :=
  match find (fun item => snd item =? command_id) SMPP_COMMANDS with
  | Some (name, _) => name
  | None => ("Unknown command (0x" ++ format_08x command_id ++ ")")%string
  end.

(** ** The transport

    The protocol object only calls [write] and [close] on its transport; the
    transport is therefore the log of these calls, oldest first. *)

Inductive call : Type :=
| write (data : bytes)   (* transport.write(data) *)
| close.                 (* transport.close() *)

Definition Transport : Type := list call.

Definition Transport_write (data : bytes) (t : Transport) : Transport :=
  t ++ [write data].

Definition Transport_close (t : Transport) : Transport :=
  t ++ [close].

(** The byte strings written so far, in order. *)
Fixpoint written (t : Transport) : list bytes :=
  match t with
  | [] => []
  | write data :: t' => data :: written t'
  | close :: t' => written t'
  end.

(** Whether [close] has been called. *)
Fixpoint closing (t : Transport) : bool :=
  match t with
  | [] => false
  | write _ :: t' => closing t'
  | close :: _ => true
  end.

(** ** [class SMPPServerProtocol] *)

Record SMPPServerProtocol : Type := mkProtocol {
  transport : option Transport;
  bound : bool;
  system_id : option string;
  sequence_number : Z;
  valid_credentials : dict string string
}.

Definition set_transport (t : option Transport) (self : SMPPServerProtocol)
  : SMPPServerProtocol :=
  mkProtocol t (bound self) (system_id self) (sequence_number self)
    (valid_credentials self).

Definition set_bound (b : bool) (self : SMPPServerProtocol)
  : SMPPServerProtocol :=
  mkProtocol (transport self) b (system_id self) (sequence_number self)
    (valid_credentials self).

(** A method body: it may mutate [self] and then return or raise; what it
    mutated before raising stays mutated. *)
Definition M (A : Type) : Type :=
  SMPPServerProtocol -> result A * SMPPServerProtocol.

Definition ret {A : Type} (a : A) : M A := fun self => (Ok a, self).

Definition bind {A B : Type} (m : M A) (k : A -> M B) : M B :=
  fun self =>
    match m self with
    | (Ok a, self') => k a self'
    | (Raise e, self') => (Raise e, self')
    end.

Definition lift {A : Type} (r : result A) : M A := fun self => (r, self).

(** [try: body except Exception as e: handler] *)
Definition try_except {A : Type} (body : M A) (handler : exn -> M A) : M A :=
  fun self =>
    match body self with
    | (Ok a, self') => (Ok a, self')
    | (Raise e, self') => handler e self'
    end.

Declare Scope smpp_scope.
Delimit Scope smpp_scope with smpp.
Notation "x <- m ;; k" := (bind m (fun x => k))
  (at level 61, m at next level, right associativity) : smpp_scope.
Notation "m ;; k" := (bind m (fun _ => k))
  (at level 61, right associativity) : smpp_scope.
Local Open Scope smpp_scope.

(** [self.bound = b] *)
Definition assign_bound (b : bool) : M unit :=
  fun self => (Ok tt, set_bound b self).

(** [self.bound] *)
Definition get_bound : M bool := fun self => (Ok (bound self), self).

(** [self.transport.write(data)] *)
Definition transport_write (data : bytes) : M unit :=
  fun self =>
    match transport self with
    | Some t => (Ok tt, set_transport (Some (Transport_write data t)) self)
    | None => (Raise AttributeError, self)
    end.

(** [self.transport.close()] *)
Definition transport_close : M unit :=
  fun self =>
    match transport self with
    | Some t => (Ok tt, set_transport (Some (Transport_close t)) self)
    | None => (Raise AttributeError, self)
    end.

(** [SMPPServerProtocol.__init__] *)
Definition __init__ : SMPPServerProtocol :=
  mkProtocol None false None 1 [("smppuser", "password")]%string.

(** [connection_made]: the peer name is only logged. *)
Definition connection_made (t : Transport) : M unit :=
  fun self => (Ok tt, set_transport (Some t) self).

(** [authenticate]: "Accept all for this example". *)
Definition authenticate (pdu : SMPPPDU.t) : M bool := ret true.

(** [send_generic_nack] *)
Definition send_generic_nack (pdu : SMPPPDU.t) (status : Z) : M unit :=
  generic_nack <- lift (SMPP_COMMANDS_at "generic_nack") ;;
  let response :=
    SMPPPDU.mk generic_nack status (SMPPPDU.sequence_number pdu) [] in
  encoded <- lift (SMPPPDU.encode response) ;;
  transport_write encoded.

(** [b'smppserver\x00'] *)
Definition smppserver_nul : bytes := list_byte_of_string "smppserver" ++ [x00].

(** [b'message_id_123\x00'] *)
Definition message_id_123_nul : bytes :=
  list_byte_of_string "message_id_123" ++ [x00].

(** [handle_bind]; the argument [is_transceiver] is not used by the body. *)
Definition handle_bind (pdu : SMPPPDU.t) (is_transceiver : bool) : M unit :=
  accepted <- authenticate pdu ;;
  if (accepted : bool) then
    assign_bound true ;;
    k1 <- lift (SMPP_COMMANDS_at "bind_receiver") ;;
    v1 <- lift (SMPP_COMMANDS_at "bind_receiver_resp") ;;
    k2 <- lift (SMPP_COMMANDS_at "bind_transmitter") ;;
    v2 <- lift (SMPP_COMMANDS_at "bind_transmitter_resp") ;;
    k3 <- lift (SMPP_COMMANDS_at "bind_transceiver") ;;
    v3 <- lift (SMPP_COMMANDS_at "bind_transceiver_resp") ;;
    resp_command_id <-
      lift (getitem Z.eqb [(k1, v1); (k2, v2); (k3, v3)]
              (SMPPPDU.command_id pdu)) ;;
    let response :=
      SMPPPDU.mk resp_command_id 0 (SMPPPDU.sequence_number pdu)
        smppserver_nul in
    encoded <- lift (SMPPPDU.encode response) ;;
    transport_write encoded
  else
    generic_nack <- lift (SMPP_COMMANDS_at "generic_nack") ;;
    let response :=
      SMPPPDU.mk generic_nack 0x0000000D (SMPPPDU.sequence_number pdu) [] in
    encoded <- lift (SMPPPDU.encode response) ;;
    transport_write encoded.

(** [handle_submit_sm] *)
Definition handle_submit_sm (pdu : SMPPPDU.t) : M unit :=
  is_bound <- get_bound ;;
  if negb is_bound then
    send_generic_nack pdu 0x0000000B
  else
    submit_sm_resp <- lift (SMPP_COMMANDS_at "submit_sm_resp") ;;
    let response :=
      SMPPPDU.mk submit_sm_resp 0 (SMPPPDU.sequence_number pdu)
        message_id_123_nul in
    encoded <- lift (SMPPPDU.encode response) ;;
    transport_write encoded.

(** [handle_unbind] *)
Definition handle_unbind (pdu : SMPPPDU.t) : M unit :=
  assign_bound false ;;
  unbind_resp <- lift (SMPP_COMMANDS_at "unbind_resp") ;;
  let response :=
    SMPPPDU.mk unbind_resp 0 (SMPPPDU.sequence_number pdu) [] in
  encoded <- lift (SMPPPDU.encode response) ;;
  transport_write encoded ;;
  transport_close.

(** The [if]/[elif] chain of [data_received], on a parsed PDU.  The log line
    before it prints [command_id_to_name pdu.command_id] and touches neither
    [self] nor the transport. *)
Definition dispatch (pdu : SMPPPDU.t) : M unit :=
  let command_id := SMPPPDU.command_id pdu in
  bind_receiver <- lift (SMPP_COMMANDS_at "bind_receiver") ;;
  if command_id =? bind_receiver then handle_bind pdu false
  else
    bind_transmitter <- lift (SMPP_COMMANDS_at "bind_transmitter") ;;
    if command_id =? bind_transmitter then handle_bind pdu false
    else
      bind_transceiver <- lift (SMPP_COMMANDS_at "bind_transceiver") ;;
      if command_id =? bind_transceiver then handle_bind pdu true
      else
        submit_sm <- lift (SMPP_COMMANDS_at "submit_sm") ;;
        if command_id =? submit_sm then handle_submit_sm pdu
        else
          unbind <- lift (SMPP_COMMANDS_at "unbind") ;;
          if command_id =? unbind then handle_unbind pdu
          else send_generic_nack pdu 0x00000003.

(** [data_received] *)
Definition data_received (data : bytes) : M unit :=
  try_except
    (pdu <- lift (parse_pdu data) ;;
     dispatch pdu)
    (fun e => transport_close).

(** [connection_lost] *)
Definition connection_lost : M unit :=
  fun self =>
    match transport self with
    | Some t => transport_close self
    | None => (Ok tt, self)
    end.

(** Whether [close] has been called on the session's transport. *)
Definition is_closing (self : SMPPServerProtocol) : bool :=
  match transport self with
  | Some t => closing t
  | None => false
  end.

(** The event loop's side of an accepted connection: it hands each received
    chunk to [data_received], and stops reading once [close] has been called
    on the transport. *)
Fixpoint feed (chunks : list bytes) (self : SMPPServerProtocol)
  : SMPPServerProtocol :=
  match chunks with
  | [] => self
  | data :: rest =>
      if is_closing self then self
      else feed rest (snd (data_received data self))
  end.

(** ** Vocabulary of the statements *)

(** [decode(encode(pdu))], with [parse_pdu] as the decoder. *)
Definition roundtrip (pdu : SMPPPDU.t) : result SMPPPDU.t :=
  rbind (SMPPPDU.encode pdu) parse_pdu.

(** The protocol object after [self.transport.write(encoded)] on transport
    [t]: one more entry in the transport's log, nothing else changed. *)
Definition sent (encoded : bytes) (t : Transport) (self : SMPPServerProtocol)
  : SMPPServerProtocol :=
  set_transport (Some (Transport_write encoded t)) self.

(** The response [response] goes out of [self] on transport [t] and leaves
    [self']: it encodes, the encoding parses back to it, and the encoding is
    the one entry added to the log of [t]. *)
Definition responds (response : SMPPPDU.t) (t : Transport)
  (self self' : SMPPServerProtocol) : Prop :=
  exists encoded,
    SMPPPDU.encode response = Ok encoded /\
    parse_pdu encoded = Ok response /\
    self' = sent encoded t self.

Ltac eval_commands :=
  repeat match goal with
    | |- context [SMPP_COMMANDS_at ?name] =>
        let v := eval vm_compute in (SMPP_COMMANDS_at name) in
        change (SMPP_COMMANDS_at name) with v
    end.

(** The request/response pairs of the dictionary built in [handle_bind]. *)
Definition bind_resp_of (command_id : Z) : result Z :=
  getitem Z.eqb
    [(0x00000001, 0x80000001); (0x00000002, 0x80000002);
     (0x00000009, 0x80000009)]
    command_id.

(** The command ids that [data_received] routes to a handler. *)
Definition dispatched_commands : list Z := [1; 2; 9; 4; 6].

(** Whether [struct.pack] accepts the length and the three header fields of
    [pdu]. *)
Definition encodable (pdu : SMPPPDU.t) : bool :=
  in_u32 (16 + len (SMPPPDU.body pdu)) && in_u32 (SMPPPDU.command_id pdu)
  && in_u32 (SMPPPDU.command_status pdu)
  && in_u32 (SMPPPDU.sequence_number pdu).

(** The three bind requests. *)
Definition is_bind (command_id : Z) : bool :=
  (command_id =? 0x00000001) || (command_id =? 0x00000002)
  || (command_id =? 0x00000009).

(** The handlers' answers, tabulated by the request's command id and the
    [bound] flag on arrival. *)
Definition response_to (was_bound : bool) (pdu : SMPPPDU.t) : SMPPPDU.t :=
  let command_id := SMPPPDU.command_id pdu in
  let sequence_number := SMPPPDU.sequence_number pdu in
  if is_bind command_id then
    SMPPPDU.mk (command_id + 0x80000000) 0 sequence_number smppserver_nul
  else if command_id =? 0x00000004 then
    if was_bound then
      SMPPPDU.mk 0x80000004 0 sequence_number message_id_123_nul
    else SMPPPDU.mk 0x80000000 0x0000000B sequence_number []
  else if command_id =? 0x00000006 then
    SMPPPDU.mk 0x80000006 0 sequence_number []
  else SMPPPDU.mk 0x80000000 0x00000003 sequence_number [].

(** The [bound] flag the handlers leave. *)
Definition bound_after (was_bound : bool) (command_id : Z) : bool :=
  if is_bind command_id then true
  else if command_id =? 0x00000006 then false
  else was_bound.

(** The calls the handlers make on the transport. *)
Definition calls_for (command_id : Z) (encoded : bytes) : list call :=
  if command_id =? 0x00000006 then [write encoded; close]
  else [write encoded].

(** ** Concrete sessions and frames *)

(** A body of [2^32 - 16] zero bytes: the shortest one whose encoded length
    needs 33 bits. *)
Definition oversized_body : bytes := repeat x00 (Z.to_nat (U32_MAX - 15)).

(** The protocol object of a connection that was just accepted. *)
Definition fresh_connection : SMPPServerProtocol :=
  snd (connection_made [] __init__).

(** The same after a successful bind. *)
Definition bound_connection : SMPPServerProtocol :=
  set_bound true fresh_connection.

(** [bind_transceiver], sequence number 7, no body. *)
Definition bind_transceiver_7 : bytes :=
  [x00; x00; x00; x10;  x00; x00; x00; x09;
   x00; x00; x00; x00;  x00; x00; x00; x07].

(** [submit_sm], sequence number 7, no body. *)
Definition submit_sm_7 : bytes :=
  [x00; x00; x00; x10;  x00; x00; x00; x04;
   x00; x00; x00; x00;  x00; x00; x00; x07].

(** [deliver_sm], sequence number 7, no body. *)
Definition deliver_sm_7 : bytes :=
  [x00; x00; x00; x10;  x00; x00; x00; x05;
   x00; x00; x00; x00;  x00; x00; x00; x07].

(** [unbind], sequence number 7. *)
Definition unbind_7 : bytes :=
  [x00; x00; x00; x10;  x00; x00; x00; x06;
   x00; x00; x00; x00;  x00; x00; x00; x07].

(** [enquire_link] (0x00000015, not in [SMPP_COMMANDS]), sequence number 7. *)
Definition enquire_link_7 : bytes :=
  [x00; x00; x00; x10;  x00; x00; x00; x15;
   x00; x00; x00; x00;  x00; x00; x00; x07].

(** A [bind_transceiver] header, sequence number 7, whose length field
    declares 0 bytes. *)
Definition bind_transceiver_7_declares_0 : bytes :=
  [x00; x00; x00; x00;  x00; x00; x00; x09;
   x00; x00; x00; x00;  x00; x00; x00; x07].

(** A [submit_sm] header, sequence number 7, whose length field declares 20
    bytes, with none of the 4 body bytes received. *)
Definition submit_sm_7_declares_20 : bytes :=
  [x00; x00; x00; x14;  x00; x00; x00; x04;
   x00; x00; x00; x00;  x00; x00; x00; x07].

(** The encoded [bind_transceiver_resp], status 0, sequence number 7, body
    [b'smppserver\x00']. *)
Definition bind_transceiver_resp_7 : bytes :=
  [x00; x00; x00; x1b;  x80; x00; x00; x09;
   x00; x00; x00; x00;  x00; x00; x00; x07] ++ smppserver_nul.

(** The encoded [generic_nack], status 0x0000000B, sequence number 7. *)
Definition generic_nack_0B_7 : bytes :=
  [x00; x00; x00; x10;  x80; x00; x00; x00;
   x00; x00; x00; x0b;  x00; x00; x00; x07].

(** The session after one accepted [bind_transceiver]. *)
Definition once_bound : SMPPServerProtocol :=
  snd (data_received bind_transceiver_7 fresh_connection).

(** * Properties *)

(** ** The command table *)

Lemma command_id_to_name_known :
  map (fun item => command_id_to_name (snd item)) SMPP_COMMANDS
  = map fst SMPP_COMMANDS.
Proof. reflexivity. Qed.

Lemma command_id_to_name_unknown :
  command_id_to_name 0x00000015 = "Unknown command (0x00000015)"%string.
Proof. reflexivity. Qed.

(** ** The codec *)

Lemma Z_of_byte_range (b : byte) : 0 <= Z_of_byte b <= 255.
Proof.
  unfold Z_of_byte. pose proof (Byte.to_N_bounded b) as Hb. lia.
Qed.

Lemma Z_of_byte_of_Z (z : Z) : 0 <= z <= 255 -> Z_of_byte (byte_of_Z z) = z.
Proof.
  intros Hz. unfold Z_of_byte, byte_of_Z.
  destruct (Byte.of_N (Z.to_N z)) as [b|] eqn:Hof.
  - apply Byte.to_of_N in Hof. rewrite Hof. lia.
  - apply Byte.of_N_None_iff in Hof. lia.
Qed.

Lemma in_u32_true (v : Z) : in_u32 v = true <-> 0 <= v <= U32_MAX.
Proof.
  unfold in_u32. rewrite andb_true_iff, !Z.leb_le. tauto.
Qed.

Lemma in_u32_false (v : Z) : in_u32 v = false <-> ~ (0 <= v <= U32_MAX).
Proof.
  rewrite <- in_u32_true. destruct (in_u32 v); split; congruence.
Qed.

Lemma unpack_I_range (b0 b1 b2 b3 : byte) :
  0 <= unpack_I b0 b1 b2 b3 <= U32_MAX.
Proof.
  pose proof (Z_of_byte_range b0). pose proof (Z_of_byte_range b1).
  pose proof (Z_of_byte_range b2). pose proof (Z_of_byte_range b3).
  unfold unpack_I, U32_MAX. lia.
Qed.

Lemma mod_256_range (z : Z) : 0 <= z mod 256 <= 255.
Proof.
  pose proof (Z.mod_pos_bound z 256). lia.
Qed.

(** A value in range packs to four bytes that unpack to it. *)
Lemma pack_I_unpack_I (v : Z) :
  0 <= v <= U32_MAX ->
  exists b0 b1 b2 b3,
    pack_I v = Ok [b0; b1; b2; b3] /\ unpack_I b0 b1 b2 b3 = v.
Proof.
  intros Hv. unfold pack_I.
  destruct (in_u32 v) eqn:Hin; [| apply in_u32_false in Hin; tauto ].
  do 4 eexists. split; [ reflexivity |].
  unfold unpack_I, U32_MAX in *.
  rewrite !Z_of_byte_of_Z by (apply mod_256_range).
  change (2 ^ 24) with 16777216. change (2 ^ 16) with 65536.
  change (2 ^ 8) with 256.
  Z.div_mod_to_equations. lia.
Qed.

Lemma pack_I_out_of_range (v : Z) :
  ~ (0 <= v <= U32_MAX) -> pack_I v = Raise StructError.
Proof.
  intros Hv. unfold pack_I. apply in_u32_false in Hv. now rewrite Hv.
Qed.

Lemma unpack_IIII_range (buf : bytes) (a b c d : Z) :
  unpack_IIII buf = Ok (a, b, c, d) ->
  (0 <= a <= U32_MAX) /\ (0 <= b <= U32_MAX) /\
  (0 <= c <= U32_MAX) /\ (0 <= d <= U32_MAX).
Proof.
  unfold unpack_IIII.
  do 17 (destruct buf as [| ? buf ]; try discriminate).
  intros H. injection H as <- <- <- <-.
  repeat split; apply unpack_I_range.
Qed.

Lemma unpack_IIII_length (buf : bytes) (r : Z * Z * Z * Z) :
  unpack_IIII buf = Ok r -> length buf = 16%nat.
Proof.
  unfold unpack_IIII.
  do 17 (destruct buf as [| ? buf ]; try discriminate).
  reflexivity.
Qed.

(** Four values in range pack to a 16-byte header that unpacks to them. *)
Lemma pack_IIII_unpack_IIII (a b c d : Z) :
  0 <= a <= U32_MAX -> 0 <= b <= U32_MAX ->
  0 <= c <= U32_MAX -> 0 <= d <= U32_MAX ->
  exists header,
    pack_IIII a b c d = Ok header /\ unpack_IIII header = Ok (a, b, c, d).
Proof.
  intros Ha Hb Hc Hd. unfold pack_IIII.
  destruct (pack_I_unpack_I a Ha) as (a0 & a1 & a2 & a3 & -> & Ea).
  destruct (pack_I_unpack_I b Hb) as (b0 & b1 & b2 & b3 & -> & Eb).
  destruct (pack_I_unpack_I c Hc) as (c0 & c1 & c2 & c3 & -> & Ec).
  destruct (pack_I_unpack_I d Hd) as (d0 & d1 & d2 & d3 & -> & Ed).
  eexists. split; [ reflexivity |].
  cbn [app unpack_IIII]. now rewrite Ea, Eb, Ec, Ed.
Qed.

Lemma len_nonneg {A : Type} (l : list A) : 0 <= len l.
Proof. unfold len. lia. Qed.

Lemma len_app {A : Type} (l1 l2 : list A) : len (l1 ++ l2) = len l1 + len l2.
Proof. unfold len. rewrite length_app. lia. Qed.

Lemma slice_header {A : Type} (header rest : list A) :
  length header = 16%nat -> slice 0 16 (header ++ rest) = header.
Proof.
  intros Hlen. unfold slice.
  change (Z.to_nat (16 - 0)) with 16%nat. change (Z.to_nat 0) with 0%nat.
  rewrite skipn_O, <- Hlen, firstn_app, Nat.sub_diag, firstn_all.
  cbn [firstn]. apply app_nil_r.
Qed.

Lemma slice_body {A : Type} (header rest : list A) (length_field : Z) :
  length header = 16%nat ->
  slice 16 length_field (header ++ rest)
  = firstn (Z.to_nat (length_field - 16)) rest.
Proof.
  intros Hlen. unfold slice.
  change (Z.to_nat 16) with 16%nat.
  rewrite <- Hlen, skipn_app, skipn_all, Nat.sub_diag, skipn_O.
  reflexivity.
Qed.

(** Every buffer of at least 16 bytes splits into its first 16 bytes and the
    rest. *)
Lemma split_header (data : bytes) :
  16 <= len data ->
  length (firstn 16 data) = 16%nat /\ data = firstn 16 data ++ skipn 16 data.
Proof.
  intros Hlen. unfold len in Hlen. split.
  - rewrite length_firstn. lia.
  - symmetry. apply firstn_skipn.
Qed.

(** [parse_pdu] on a header followed by anything: the body is what the
    declared length leaves of the bytes after the header. *)
Lemma parse_pdu_header (header rest : bytes) (length_field c st sq : Z) :
  unpack_IIII header = Ok (length_field, c, st, sq) ->
  parse_pdu (header ++ rest)
  = Ok (SMPPPDU.mk c st sq (firstn (Z.to_nat (length_field - 16)) rest)).
Proof.
  intros Hun. pose proof (unpack_IIII_length _ _ Hun) as Hlen.
  unfold parse_pdu.
  destruct (len (header ++ rest) <? 16) eqn:Hshort.
  - apply Z.ltb_lt in Hshort. rewrite len_app in Hshort.
    pose proof (len_nonneg rest). unfold len in Hshort at 1. lia.
  - rewrite slice_header, Hun by assumption. cbn [rbind].
    now rewrite slice_body.
Qed.

Lemma parse_pdu_short (data : bytes) :
  len data < 16 -> parse_pdu data = Raise ValueError.
Proof.
  intros Hlen. unfold parse_pdu. apply Z.ltb_lt in Hlen. now rewrite Hlen.
Qed.

(** What a successful [parse_pdu] says about its input and its result. *)
Lemma parse_pdu_Ok (data : bytes) (pdu : SMPPPDU.t) :
  parse_pdu data = Ok pdu ->
  exists length_field,
    16 <= len data /\
    unpack_IIII (firstn 16 data)
    = Ok (length_field, SMPPPDU.command_id pdu, SMPPPDU.command_status pdu,
          SMPPPDU.sequence_number pdu) /\
    SMPPPDU.body pdu = firstn (Z.to_nat (length_field - 16)) (skipn 16 data).
Proof.
  intros Hparse.
  destruct (Z.ltb_spec (len data) 16) as [Hshort | Hlong].
  - rewrite parse_pdu_short in Hparse by assumption. discriminate.
  - destruct (split_header data Hlong) as [Hlen Hsplit].
    destruct (unpack_IIII (firstn 16 data)) as [[[[l c] st] sq] | e] eqn:Hun.
    + rewrite Hsplit, (parse_pdu_header _ _ _ _ _ _ Hun) in Hparse.
      injection Hparse as <-. exists l.
      cbn [SMPPPDU.command_id SMPPPDU.command_status SMPPPDU.sequence_number
           SMPPPDU.body].
      auto.
    + exfalso. revert Hun. unfold unpack_IIII.
      do 16 (destruct data as [| ? data ]; cbn in Hlen; try discriminate).
Qed.

Lemma parse_pdu_range (data : bytes) (pdu : SMPPPDU.t) :
  parse_pdu data = Ok pdu ->
  (0 <= SMPPPDU.command_id pdu <= U32_MAX) /\
  (0 <= SMPPPDU.command_status pdu <= U32_MAX) /\
  (0 <= SMPPPDU.sequence_number pdu <= U32_MAX).
Proof.
  intros Hparse. destruct (parse_pdu_Ok _ _ Hparse) as (l & _ & Hun & _).
  apply unpack_IIII_range in Hun. tauto.
Qed.

(** [encode] succeeds exactly on a header that unpacks to the fields. *)
Lemma encode_Ok (pdu : SMPPPDU.t) :
  0 <= SMPPPDU.command_id pdu <= U32_MAX ->
  0 <= SMPPPDU.command_status pdu <= U32_MAX ->
  0 <= SMPPPDU.sequence_number pdu <= U32_MAX ->
  16 + len (SMPPPDU.body pdu) <= U32_MAX ->
  exists header,
    SMPPPDU.encode pdu = Ok (header ++ SMPPPDU.body pdu) /\
    unpack_IIII header
    = Ok (16 + len (SMPPPDU.body pdu), SMPPPDU.command_id pdu,
          SMPPPDU.command_status pdu, SMPPPDU.sequence_number pdu).
Proof.
  intros Hc Hst Hsq Hlen.
  pose proof (len_nonneg (SMPPPDU.body pdu)) as Hpos.
  destruct (pack_IIII_unpack_IIII (16 + len (SMPPPDU.body pdu))
              (SMPPPDU.command_id pdu) (SMPPPDU.command_status pdu)
              (SMPPPDU.sequence_number pdu)) as (header & Hpack & Hun);
    try assumption; [ lia |].
  exists header. split; [| exact Hun ].
  unfold SMPPPDU.encode. now rewrite Hpack.
Qed.

Lemma encode_body_too_long (pdu : SMPPPDU.t) :
  U32_MAX < 16 + len (SMPPPDU.body pdu) ->
  SMPPPDU.encode pdu = Raise StructError.
Proof.
  intros Hlen. unfold SMPPPDU.encode, pack_IIII.
  rewrite pack_I_out_of_range by lia. reflexivity.
Qed.

(** An encoded PDU parses back to itself. *)
Lemma parse_pdu_encode (pdu : SMPPPDU.t) (encoded : bytes) :
  0 <= SMPPPDU.command_id pdu <= U32_MAX ->
  0 <= SMPPPDU.command_status pdu <= U32_MAX ->
  0 <= SMPPPDU.sequence_number pdu <= U32_MAX ->
  SMPPPDU.encode pdu = Ok encoded ->
  parse_pdu encoded = Ok pdu.
Proof.
  intros Hc Hst Hsq Henc.
  destruct (Z_le_gt_dec (16 + len (SMPPPDU.body pdu)) U32_MAX) as [Hlen | Hlen].
  - destruct (encode_Ok pdu Hc Hst Hsq Hlen) as (header & Henc' & Hun).
    rewrite Henc' in Henc. injection Henc as <-.
    rewrite (parse_pdu_header _ _ _ _ _ _ Hun).
    replace (Z.to_nat (16 + len (SMPPPDU.body pdu) - 16))
      with (length (SMPPPDU.body pdu)) by (unfold len; lia).
    rewrite firstn_all. now destruct pdu.
  - rewrite encode_body_too_long in Henc by lia. discriminate.
Qed.

(** [encode] followed by [parse_pdu], for fields and a length that fit in 32
    bits. *)
Lemma encode_then_parse (pdu : SMPPPDU.t) :
  0 <= SMPPPDU.command_id pdu <= U32_MAX ->
  0 <= SMPPPDU.command_status pdu <= U32_MAX ->
  0 <= SMPPPDU.sequence_number pdu <= U32_MAX ->
  16 + len (SMPPPDU.body pdu) <= U32_MAX ->
  exists encoded,
    SMPPPDU.encode pdu = Ok encoded /\ parse_pdu encoded = Ok pdu.
Proof.
  intros Hc Hst Hsq Hlen.
  destruct (encode_Ok pdu Hc Hst Hsq Hlen) as (header & Henc & _).
  exists (header ++ SMPPPDU.body pdu).
  split; [ exact Henc |]. exact (parse_pdu_encode pdu _ Hc Hst Hsq Henc).
Qed.

(** C1 does not hold as stated: the three header fields of this PDU are 32-bit
    unsigned values (all zero), but its body has [2^32 - 16] bytes, so the
    length field [16 + len(body) = 2^32] is refused by [struct.pack]:
    [encode] raises and there is nothing to decode. *)
Lemma roundtrip_oversized_body :
  in_u32 0 = true /\
  len oversized_body = U32_MAX - 15 /\
  SMPPPDU.encode (SMPPPDU.mk 0 0 0 oversized_body) = Raise StructError /\
  roundtrip (SMPPPDU.mk 0 0 0 oversized_body)
  <> Ok (SMPPPDU.mk 0 0 0 oversized_body).
Proof.
  assert (Hlen : len oversized_body = U32_MAX - 15).
  { unfold oversized_body, len. rewrite repeat_length.
    apply Z2Nat.id. unfold U32_MAX. lia. }
  assert (Henc : SMPPPDU.encode (SMPPPDU.mk 0 0 0 oversized_body)
                 = Raise StructError).
  { apply encode_body_too_long. cbn [SMPPPDU.body]. rewrite Hlen. lia. }
  split; [ reflexivity |]. split; [ exact Hlen |]. split; [ exact Henc |].
  unfold roundtrip. rewrite Henc. cbn [rbind]. discriminate.
Qed.

(** C1, as the code has it: for every PDU whose [command_id],
    [command_status] and [sequence_number] are 32-bit unsigned values and
    whose body has at most [2^32 - 17] bytes (so that the length field
    [16 + len(body)] fits in 32 bits too), [encode] succeeds and [parse_pdu]
    of the encoded bytes is a PDU equal to the original, field by field. *)
Theorem roundtrip_encode_parse_pdu (pdu : SMPPPDU.t) :
  0 <= SMPPPDU.command_id pdu <= U32_MAX ->
  0 <= SMPPPDU.command_status pdu <= U32_MAX ->
  0 <= SMPPPDU.sequence_number pdu <= U32_MAX ->
  16 + len (SMPPPDU.body pdu) <= U32_MAX ->
  exists encoded,
    SMPPPDU.encode pdu = Ok encoded /\
    parse_pdu encoded = Ok pdu /\
    roundtrip pdu = Ok pdu.
Proof.
  intros Hc Hst Hsq Hlen.
  destruct (encode_then_parse pdu Hc Hst Hsq Hlen) as (encoded & Henc & Hparse).
  exists encoded.
  split; [ exact Henc |]. split; [ exact Hparse |].
  unfold roundtrip. rewrite Henc. exact Hparse.
Qed.

(** The round trip at [submit_sm], status 0, sequence number [2^32 - 1] and a
    three-byte body. *)
Lemma roundtrip_encode_parse_pdu_witness :
  exists encoded,
    SMPPPDU.encode (SMPPPDU.mk 4 0 U32_MAX [x01; x02; xff]) = Ok encoded /\
    parse_pdu encoded = Ok (SMPPPDU.mk 4 0 U32_MAX [x01; x02; xff]) /\
    roundtrip (SMPPPDU.mk 4 0 U32_MAX [x01; x02; xff])
    = Ok (SMPPPDU.mk 4 0 U32_MAX [x01; x02; xff]).
Proof.
  apply (roundtrip_encode_parse_pdu (SMPPPDU.mk 4 0 U32_MAX [x01; x02; xff]));
    unfold U32_MAX, len; simpl; lia.
Defined.

(** ** The handlers *)

(** The last two lines of every handler: encode the response and write it. *)
Lemma write_response (response : SMPPPDU.t) (t : Transport)
  (self : SMPPServerProtocol) :
  transport self = Some t ->
  0 <= SMPPPDU.command_id response <= U32_MAX ->
  0 <= SMPPPDU.command_status response <= U32_MAX ->
  0 <= SMPPPDU.sequence_number response <= U32_MAX ->
  16 + len (SMPPPDU.body response) <= U32_MAX ->
  exists self',
    (encoded <- lift (SMPPPDU.encode response) ;; transport_write encoded) self
    = (Ok tt, self') /\
    responds response t self self'.
Proof.
  intros Ht Hc Hst Hsq Hlen.
  destruct (encode_then_parse response Hc Hst Hsq Hlen)
    as (encoded & Henc & Hparse).
  exists (sent encoded t self). split.
  - unfold bind, lift, transport_write. rewrite Henc, Ht. reflexivity.
  - exists encoded. auto.
Qed.

Section Handlers.

(** A connected session and a request whose sequence number came out of
    [struct.unpack]. *)
Variables (t : Transport) (self : SMPPServerProtocol) (pdu : SMPPPDU.t).
Hypothesis Htransport : transport self = Some t.
Hypothesis Hsequence : 0 <= SMPPPDU.sequence_number pdu <= U32_MAX.

Ltac fits_u32 := cbn; unfold U32_MAX in *; lia || assumption.

Lemma send_generic_nack_Ok (status : Z) :
  0 <= status <= U32_MAX ->
  exists self',
    send_generic_nack pdu status self = (Ok tt, self') /\
    responds (SMPPPDU.mk 0x80000000 status (SMPPPDU.sequence_number pdu) [])
      t self self'.
Proof.
  intros Hstatus.
  apply (write_response
           (SMPPPDU.mk 0x80000000 status (SMPPPDU.sequence_number pdu) []));
    fits_u32.
Qed.

Lemma handle_bind_Ok (is_transceiver : bool) (resp : Z) :
  bind_resp_of (SMPPPDU.command_id pdu) = Ok resp ->
  exists self',
    handle_bind pdu is_transceiver self = (Ok tt, self') /\
    responds (SMPPPDU.mk resp 0 (SMPPPDU.sequence_number pdu) smppserver_nul)
      t (set_bound true self) self'.
Proof.
  intros Hresp.
  assert (Hrange : 0 <= resp <= U32_MAX).
  { revert Hresp. unfold bind_resp_of, getitem, U32_MAX.
    repeat match goal with
      | |- context [if ?c then _ else _] => destruct c
      end; intros H; inversion H; lia. }
  unfold handle_bind, authenticate. eval_commands.
  unfold bind at 1. unfold ret at 1. cbv iota.
  unfold bind at 1. unfold assign_bound at 1. cbv iota.
  do 6 (unfold bind at 1; unfold lift at 1; cbv iota beta).
  unfold bind at 1. unfold lift at 1.
  fold (bind_resp_of (SMPPPDU.command_id pdu)). rewrite Hresp. cbv iota beta.
  apply write_response; fits_u32.
Qed.

Lemma handle_submit_sm_unbound :
  bound self = false ->
  exists self',
    handle_submit_sm pdu self = (Ok tt, self') /\
    responds
      (SMPPPDU.mk 0x80000000 0x0000000B (SMPPPDU.sequence_number pdu) [])
      t self self'.
Proof.
  intros Hbound.
  unfold handle_submit_sm, get_bound. unfold bind at 1. rewrite Hbound.
  cbv iota beta. cbn [negb].
  apply send_generic_nack_Ok. unfold U32_MAX. lia.
Qed.

Lemma handle_submit_sm_bound :
  bound self = true ->
  exists self',
    handle_submit_sm pdu self = (Ok tt, self') /\
    responds
      (SMPPPDU.mk 0x80000004 0 (SMPPPDU.sequence_number pdu)
         message_id_123_nul)
      t self self'.
Proof.
  intros Hbound.
  unfold handle_submit_sm, get_bound. unfold bind at 1. rewrite Hbound.
  cbv iota beta. cbn [negb]. eval_commands.
  unfold bind at 1. unfold lift at 1. cbv iota beta.
  apply write_response; fits_u32.
Qed.

Lemma handle_unbind_Ok :
  exists encoded,
    SMPPPDU.encode (SMPPPDU.mk 0x80000006 0 (SMPPPDU.sequence_number pdu) [])
    = Ok encoded /\
    parse_pdu encoded
    = Ok (SMPPPDU.mk 0x80000006 0 (SMPPPDU.sequence_number pdu) []) /\
    handle_unbind pdu self
    = (Ok tt,
       set_transport (Some (Transport_close (Transport_write encoded t)))
         (set_bound false self)).
Proof.
  destruct (encode_then_parse
              (SMPPPDU.mk 0x80000006 0 (SMPPPDU.sequence_number pdu) []))
    as (encoded & Henc & Hparse); try fits_u32.
  exists encoded. split; [ exact Henc |]. split; [ exact Hparse |].
  unfold handle_unbind. eval_commands.
  unfold bind, lift, assign_bound, transport_write, transport_close.
  rewrite Henc. cbn [transport set_bound set_transport]. rewrite Htransport.
  reflexivity.
Qed.

End Handlers.

(** ** The dispatcher *)

Lemma dispatch_bind_receiver (pdu : SMPPPDU.t) :
  SMPPPDU.command_id pdu = 1 -> dispatch pdu = handle_bind pdu false.
Proof. destruct pdu; cbn; intros ->; reflexivity. Qed.

Lemma dispatch_bind_transmitter (pdu : SMPPPDU.t) :
  SMPPPDU.command_id pdu = 2 -> dispatch pdu = handle_bind pdu false.
Proof. destruct pdu; cbn; intros ->; reflexivity. Qed.

Lemma dispatch_bind_transceiver (pdu : SMPPPDU.t) :
  SMPPPDU.command_id pdu = 9 -> dispatch pdu = handle_bind pdu true.
Proof. destruct pdu; cbn; intros ->; reflexivity. Qed.

Lemma dispatch_submit_sm (pdu : SMPPPDU.t) :
  SMPPPDU.command_id pdu = 4 -> dispatch pdu = handle_submit_sm pdu.
Proof. destruct pdu; cbn; intros ->; reflexivity. Qed.

Lemma dispatch_unbind (pdu : SMPPPDU.t) :
  SMPPPDU.command_id pdu = 6 -> dispatch pdu = handle_unbind pdu.
Proof. destruct pdu; cbn; intros ->; reflexivity. Qed.

Lemma dispatch_other (pdu : SMPPPDU.t) (self : SMPPServerProtocol) :
  ~ In (SMPPPDU.command_id pdu) dispatched_commands ->
  dispatch pdu self = send_generic_nack pdu 0x00000003 self.
Proof.
  intros Hother. unfold dispatch. eval_commands.
  assert (Hneq : forall c, In c dispatched_commands ->
                           (SMPPPDU.command_id pdu =? c) = false).
  { intros c Hc. apply Z.eqb_neq. intros Heq. now rewrite Heq in Hother. }
  unfold bind at 1. unfold lift at 1. cbv iota beta.
  rewrite Hneq by (unfold dispatched_commands, In; tauto).
  do 4 (unfold bind at 1; unfold lift at 1; cbv iota beta;
        rewrite Hneq by (unfold dispatched_commands, In; tauto)).
  reflexivity.
Qed.

Lemma dispatch_bind (pdu : SMPPPDU.t) (resp : Z) :
  bind_resp_of (SMPPPDU.command_id pdu) = Ok resp ->
  exists is_transceiver, dispatch pdu = handle_bind pdu is_transceiver.
Proof.
  unfold bind_resp_of, getitem.
  destruct (Z.eqb_spec 1 (SMPPPDU.command_id pdu)) as [H1 | _];
    [ exists false; now apply dispatch_bind_receiver |].
  destruct (Z.eqb_spec 2 (SMPPPDU.command_id pdu)) as [H2 | _];
    [ exists false; now apply dispatch_bind_transmitter |].
  destruct (Z.eqb_spec 9 (SMPPPDU.command_id pdu)) as [H9 | _];
    [ exists true; now apply dispatch_bind_transceiver |].
  discriminate.
Qed.

(** [data_received] on a chunk that parses: the PDU is dispatched, and an
    exception from the handler closes the transport. *)
Lemma data_received_parsed (data : bytes) (pdu : SMPPPDU.t)
  (self : SMPPServerProtocol) :
  parse_pdu data = Ok pdu ->
  data_received data self
  = try_except (dispatch pdu) (fun _ => transport_close) self.
Proof.
  intros Hparse. unfold data_received, try_except, bind, lift.
  rewrite Hparse. reflexivity.
Qed.

Lemma data_received_dispatch (data : bytes) (pdu : SMPPPDU.t)
  (self self' : SMPPServerProtocol) :
  parse_pdu data = Ok pdu ->
  dispatch pdu self = (Ok tt, self') ->
  data_received data self = (Ok tt, self').
Proof.
  intros Hparse Hdispatch. rewrite (data_received_parsed _ _ _ Hparse).
  unfold try_except. now rewrite Hdispatch.
Qed.

(** [data_received] on a chunk that does not parse: nothing is dispatched or
    written, the transport is closed. *)
Lemma data_received_unparsed (data : bytes) (e : exn) (t : Transport)
  (self : SMPPServerProtocol) :
  parse_pdu data = Raise e ->
  transport self = Some t ->
  data_received data self
  = (Ok tt, set_transport (Some (Transport_close t)) self).
Proof.
  intros Hparse Ht. unfold data_received, try_except, bind, lift.
  rewrite Hparse. unfold transport_close. now rewrite Ht.
Qed.

(** ** The claims about the dispatcher *)

Lemma responds_transport (response : SMPPPDU.t) (t : Transport)
  (self self' : SMPPServerProtocol) :
  responds response t self self' ->
  exists encoded,
    parse_pdu encoded = Ok response /\
    transport self' = Some (t ++ [write encoded]) /\
    bound self' = bound self.
Proof.
  intros (encoded & _ & Hparse & ->). exists encoded. auto.
Qed.

(** Whatever the command and the session, a parsed request gets exactly one
    response, carrying the request's sequence number. *)
Lemma dispatch_one_response (pdu : SMPPPDU.t) (t : Transport)
  (self : SMPPServerProtocol) :
  transport self = Some t ->
  0 <= SMPPPDU.sequence_number pdu <= U32_MAX ->
  exists self' encoded response rest,
    dispatch pdu self = (Ok tt, self') /\
    transport self' = Some (t ++ write encoded :: rest) /\
    written rest = [] /\
    parse_pdu encoded = Ok response /\
    SMPPPDU.sequence_number response = SMPPPDU.sequence_number pdu.
Proof.
  intros Ht Hsq.
  assert (Hfinish : forall m response self0,
             transport self0 = Some t ->
             SMPPPDU.sequence_number response = SMPPPDU.sequence_number pdu ->
             (exists self', m self = (Ok tt, self') /\
                            responds response t self0 self') ->
             exists self' encoded response rest,
               m self = (Ok tt, self') /\
               transport self' = Some (t ++ write encoded :: rest) /\
               written rest = [] /\
               parse_pdu encoded = Ok response /\
               SMPPPDU.sequence_number response
               = SMPPPDU.sequence_number pdu).
  { intros m response self0 Ht0 Hseq (self' & Hrun & Hresp).
    destruct (responds_transport _ _ _ _ Hresp) as (encoded & Hparse & Ht' & _).
    exists self', encoded, response, []. auto. }
  destruct (bind_resp_of (SMPPPDU.command_id pdu)) as [resp | e] eqn:Hbind.
  { destruct (dispatch_bind pdu resp Hbind) as (b & ->).
    eapply (Hfinish _ _ (set_bound true self)); [ exact Ht | |
      apply (handle_bind_Ok t self pdu Ht Hsq b resp Hbind) ].
    reflexivity. }
  destruct (Z.eq_dec (SMPPPDU.command_id pdu) 4) as [H4 | H4].
  { rewrite (dispatch_submit_sm pdu H4).
    destruct (bound self) eqn:Hbound.
    - eapply (Hfinish _ _ self); [ exact Ht | |
        apply (handle_submit_sm_bound t self pdu Ht Hsq Hbound) ].
      reflexivity.
    - eapply (Hfinish _ _ self); [ exact Ht | |
        apply (handle_submit_sm_unbound t self pdu Ht Hsq Hbound) ].
      reflexivity. }
  destruct (Z.eq_dec (SMPPPDU.command_id pdu) 6) as [H6 | H6].
  { rewrite (dispatch_unbind pdu H6).
    destruct (handle_unbind_Ok t self pdu Ht Hsq)
      as (encoded & _ & Hparse & ->).
    eexists _, encoded, _, [close]. split; [ reflexivity |].
    split; [| split; [ reflexivity | split; [ exact Hparse | reflexivity ] ] ].
    cbn. unfold Transport_close, Transport_write.
    now rewrite <- app_assoc. }
  assert (Hother : ~ In (SMPPPDU.command_id pdu) dispatched_commands).
  { revert Hbind. unfold bind_resp_of, getitem, dispatched_commands, In.
    destruct (Z.eqb_spec 1 (SMPPPDU.command_id pdu)); [ discriminate |].
    destruct (Z.eqb_spec 2 (SMPPPDU.command_id pdu)); [ discriminate |].
    destruct (Z.eqb_spec 9 (SMPPPDU.command_id pdu)); [ discriminate |].
    intros _. intuition congruence. }
  rewrite (dispatch_other pdu self Hother).
  eapply (Hfinish _ _ self); [ exact Ht | |
    apply (send_generic_nack_Ok t self pdu Ht Hsq 3); unfold U32_MAX; lia ].
  reflexivity.
Qed.

Lemma closing_after_close (t : Transport) (rest : list call) :
  closing (t ++ close :: rest) = true.
Proof.
  induction t as [| [data |] t IH ]; cbn; auto.
Qed.

Lemma closing_after_write (t : Transport) (data : bytes) :
  closing (Transport_write data t) = closing t.
Proof.
  unfold Transport_write. induction t as [| [d |] t IH ]; cbn; auto.
Qed.

Lemma feed_closing (chunks : list bytes) (self : SMPPServerProtocol) :
  is_closing self = true -> feed chunks self = self.
Proof.
  intros Hclosing. destruct chunks; cbn; [ reflexivity |].
  now rewrite Hclosing.
Qed.

Lemma set_bound_same (self : SMPPServerProtocol) :
  set_bound (bound self) self = self.
Proof. now destruct self. Qed.

(** C2: for every session and every request that parses, [data_received]
    answers with exactly one response PDU (the calls it makes on the transport
    are one [write] and then no further [write]), whichever handler or error
    path produced it, and that response carries the request's sequence
    number. *)
Theorem response_echoes_sequence_number (data : bytes) (pdu : SMPPPDU.t)
  (t : Transport) (self : SMPPServerProtocol) :
  transport self = Some t ->
  parse_pdu data = Ok pdu ->
  exists self' encoded response rest,
    data_received data self = (Ok tt, self') /\
    transport self' = Some (t ++ write encoded :: rest) /\
    written rest = [] /\
    parse_pdu encoded = Ok response /\
    SMPPPDU.sequence_number response = SMPPPDU.sequence_number pdu.
Proof.
  intros Ht Hparse.
  destruct (parse_pdu_range _ _ Hparse) as (_ & _ & Hsq).
  destruct (dispatch_one_response pdu t self Ht Hsq)
    as (self' & encoded & response & rest & Hrun & Hrest).
  exists self', encoded, response, rest.
  split; [| exact Hrest ].
  exact (data_received_dispatch _ _ _ _ Hparse Hrun).
Qed.

Lemma response_echoes_sequence_number_witness :
  exists self' encoded response rest,
    data_received unbind_7 bound_connection = (Ok tt, self') /\
    transport self' = Some ([] ++ write encoded :: rest) /\
    written rest = [] /\
    parse_pdu encoded = Ok response /\
    SMPPPDU.sequence_number response = 7.
Proof.
  apply (response_echoes_sequence_number unbind_7 (SMPPPDU.mk 6 0 7 [])
           [] bound_connection); reflexivity.
Defined.

(** C3: in a session whose [bound] flag is still [False] (no bind has
    succeeded), a [submit_sm] gets exactly one response, the [generic_nack]
    with status 0x0000000B and the request's sequence number, and nothing of
    the session but the transport's log changes. *)
Theorem submit_sm_before_bind (data : bytes) (pdu : SMPPPDU.t)
  (t : Transport) (self : SMPPServerProtocol) :
  transport self = Some t ->
  bound self = false ->
  parse_pdu data = Ok pdu ->
  SMPPPDU.command_id pdu = 0x00000004 ->
  exists self',
    data_received data self = (Ok tt, self') /\
    responds
      (SMPPPDU.mk 0x80000000 0x0000000B (SMPPPDU.sequence_number pdu) [])
      t self self' /\
    bound self' = false /\ is_closing self' = is_closing self.
Proof.
  intros Ht Hbound Hparse Hcid.
  destruct (parse_pdu_range _ _ Hparse) as (_ & _ & Hsq).
  destruct (handle_submit_sm_unbound t self pdu Ht Hsq Hbound)
    as (self' & Hrun & Hresp).
  exists self'. split.
  - apply (data_received_dispatch _ _ _ _ Hparse).
    now rewrite (dispatch_submit_sm pdu Hcid).
  - split; [ exact Hresp |].
    destruct Hresp as (encoded & _ & _ & ->).
    unfold is_closing. cbn. rewrite Ht. split; [ exact Hbound |].
    apply closing_after_write.
Qed.

Lemma submit_sm_before_bind_witness :
  exists self',
    data_received submit_sm_7 fresh_connection = (Ok tt, self') /\
    responds (SMPPPDU.mk 0x80000000 0x0000000B 7 []) [] fresh_connection
      self' /\
    bound self' = false /\ is_closing self' = is_closing fresh_connection.
Proof.
  apply (submit_sm_before_bind submit_sm_7 (SMPPPDU.mk 4 0 7 []) []
           fresh_connection); reflexivity.
Defined.

(** A session that has only been fed chunks that are not bind requests still
    has [bound = False]: this is how "no successful bind has occurred" shows
    in the protocol object. *)
Lemma data_received_keeps_unbound (data : bytes) (t : Transport)
  (self : SMPPServerProtocol) :
  transport self = Some t ->
  bound self = false ->
  (forall pdu resp, parse_pdu data = Ok pdu ->
                    bind_resp_of (SMPPPDU.command_id pdu) <> Ok resp) ->
  exists t',
    transport (snd (data_received data self)) = Some t' /\
    bound (snd (data_received data self)) = false.
Proof.
  intros Ht Hbound Hnobind.
  destruct (parse_pdu data) as [pdu | e] eqn:Hparse.
  - destruct (parse_pdu_range _ _ Hparse) as (_ & _ & Hsq).
    rewrite (data_received_parsed _ _ _ Hparse). unfold try_except.
    destruct (Z.eq_dec (SMPPPDU.command_id pdu) 4) as [H4 | H4].
    { rewrite (dispatch_submit_sm pdu H4).
      destruct (handle_submit_sm_unbound t self pdu Ht Hsq Hbound)
        as (self' & -> & encoded & _ & _ & ->).
      eexists. split; [ reflexivity | exact Hbound ]. }
    destruct (Z.eq_dec (SMPPPDU.command_id pdu) 6) as [H6 | H6].
    { rewrite (dispatch_unbind pdu H6).
      destruct (handle_unbind_Ok t self pdu Ht Hsq) as (encoded & _ & _ & ->).
      eexists. split; reflexivity. }
    assert (Hother : ~ In (SMPPPDU.command_id pdu) dispatched_commands).
    { unfold dispatched_commands, In. intros [H | [H | [H | [H | [H | []]]]]];
        try congruence;
        eapply (Hnobind pdu); try reflexivity;
        unfold bind_resp_of; rewrite <- H; reflexivity. }
    rewrite (dispatch_other pdu self Hother).
    destruct (send_generic_nack_Ok t self pdu Ht Hsq 3) as
      (self' & -> & encoded & _ & _ & ->); [ unfold U32_MAX; lia |].
    eexists. split; [ reflexivity | exact Hbound ].
  - rewrite (data_received_unparsed _ _ _ _ Hparse Ht).
    eexists. split; [ reflexivity | exact Hbound ].
Qed.

Lemma feed_keeps_unbound (chunks : list bytes) :
  forall (t : Transport) (self : SMPPServerProtocol),
    transport self = Some t ->
    bound self = false ->
    (forall data pdu resp, In data chunks -> parse_pdu data = Ok pdu ->
                           bind_resp_of (SMPPPDU.command_id pdu) <> Ok resp) ->
    bound (feed chunks self) = false.
Proof.
  induction chunks as [| data chunks IH ]; intros t self Ht Hbound Hnobind.
  - exact Hbound.
  - cbn [feed]. destruct (is_closing self); [ exact Hbound |].
    destruct (data_received_keeps_unbound data t self Ht Hbound)
      as (t' & Ht' & Hbound').
    { intros pdu resp. apply Hnobind. now left. }
    apply (IH t' _ Ht' Hbound').
    intros d pdu resp Hin. apply Hnobind. now right.
Qed.

(** C7: in an unbound session, a [bind_transceiver] that [authenticate]
    accepts is routed to [handle_bind] with [is_transceiver=True], sets the
    session's [bound] flag (the only bound state the protocol object has), and
    gets exactly one response: [bind_transceiver_resp] (0x80000009), status 0,
    the request's sequence number, body [b'smppserver\x00']. *)
Theorem bind_transceiver_accepted (data : bytes) (pdu : SMPPPDU.t)
  (t : Transport) (self : SMPPServerProtocol) :
  transport self = Some t ->
  bound self = false ->
  parse_pdu data = Ok pdu ->
  SMPPPDU.command_id pdu = 0x00000009 ->
  authenticate pdu self = (Ok true, self) ->
  exists self',
    dispatch pdu = handle_bind pdu true /\
    data_received data self = (Ok tt, self') /\
    responds
      (SMPPPDU.mk 0x80000009 0 (SMPPPDU.sequence_number pdu)
         (list_byte_of_string "smppserver" ++ [x00]))
      t (set_bound true self) self' /\
    bound self' = true /\ is_closing self' = is_closing self.
Proof.
  intros Ht Hbound Hparse Hcid _.
  destruct (parse_pdu_range _ _ Hparse) as (_ & _ & Hsq).
  destruct (handle_bind_Ok t self pdu Ht Hsq true 0x80000009)
    as (self' & Hrun & Hresp).
  { now rewrite Hcid. }
  exists self'. split; [ exact (dispatch_bind_transceiver pdu Hcid) |].
  split.
  - apply (data_received_dispatch _ _ _ _ Hparse).
    now rewrite (dispatch_bind_transceiver pdu Hcid).
  - split; [ exact Hresp |].
    destruct Hresp as (encoded & _ & _ & ->).
    unfold is_closing. cbn. rewrite Ht. split; [ reflexivity |].
    apply closing_after_write.
Qed.

Lemma bind_transceiver_accepted_witness :
  exists self',
    dispatch (SMPPPDU.mk 9 0 7 []) = handle_bind (SMPPPDU.mk 9 0 7 []) true /\
    data_received bind_transceiver_7 fresh_connection = (Ok tt, self') /\
    responds
      (SMPPPDU.mk 0x80000009 0 7 (list_byte_of_string "smppserver" ++ [x00]))
      [] (set_bound true fresh_connection) self' /\
    bound self' = true /\ is_closing self' = is_closing fresh_connection.
Proof.
  apply (bind_transceiver_accepted bind_transceiver_7 (SMPPPDU.mk 9 0 7 []) []
           fresh_connection); reflexivity.
Defined.

(** C8: in a bound session, an [unbind] gets exactly one response,
    [unbind_resp] (0x80000006) with status 0 and the request's sequence
    number; [close] is called on the transport right after that write; and
    whatever chunks arrive afterwards, none is processed. *)
Theorem unbind_responds_then_closes (data : bytes) (pdu : SMPPPDU.t)
  (t : Transport) (self : SMPPServerProtocol) :
  transport self = Some t ->
  bound self = true ->
  parse_pdu data = Ok pdu ->
  SMPPPDU.command_id pdu = 0x00000006 ->
  exists self' encoded,
    data_received data self = (Ok tt, self') /\
    SMPPPDU.encode
      (SMPPPDU.mk 0x80000006 0 (SMPPPDU.sequence_number pdu) [])
    = Ok encoded /\
    parse_pdu encoded
    = Ok (SMPPPDU.mk 0x80000006 0 (SMPPPDU.sequence_number pdu) []) /\
    transport self' = Some (t ++ [write encoded; close]) /\
    is_closing self' = true /\
    forall chunks, feed chunks self' = self'.
Proof.
  intros Ht _ Hparse Hcid.
  destruct (parse_pdu_range _ _ Hparse) as (_ & _ & Hsq).
  destruct (handle_unbind_Ok t self pdu Ht Hsq)
    as (encoded & Henc & Hback & Hrun).
  assert (Hlog : Transport_close (Transport_write encoded t)
                 = t ++ [write encoded; close]).
  { unfold Transport_close, Transport_write. now rewrite <- app_assoc. }
  rewrite Hlog in Hrun.
  eexists _, encoded. split.
  - apply (data_received_dispatch _ _ _ _ Hparse).
    rewrite (dispatch_unbind pdu Hcid). exact Hrun.
  - split; [ exact Henc |]. split; [ exact Hback |].
    split; [ reflexivity |].
    assert (Hclosing : is_closing
                         (set_transport (Some (t ++ [write encoded; close]))
                            (set_bound false self)) = true).
    { unfold is_closing. cbn [transport set_transport].
      change (t ++ [write encoded; close])
        with (t ++ [write encoded] ++ close :: []).
      rewrite app_assoc. apply closing_after_close. }
    split; [ exact Hclosing |].
    intros chunks. now apply feed_closing.
Qed.

Lemma unbind_responds_then_closes_witness :
  exists self' encoded,
    data_received unbind_7 bound_connection = (Ok tt, self') /\
    SMPPPDU.encode (SMPPPDU.mk 0x80000006 0 7 []) = Ok encoded /\
    parse_pdu encoded = Ok (SMPPPDU.mk 0x80000006 0 7 []) /\
    transport self' = Some ([] ++ [write encoded; close]) /\
    is_closing self' = true /\
    forall chunks, feed chunks self' = self'.
Proof.
  apply (unbind_responds_then_closes unbind_7 (SMPPPDU.mk 6 0 7 []) []
           bound_connection); reflexivity.
Defined.

(** C9: a PDU whose command id is none of the five that [data_received]
    routes to a handler gets exactly one response, the [generic_nack] with
    status 0x00000003 and the request's sequence number, and nothing of the
    session but the transport's log changes. *)
Theorem unknown_command_nack (data : bytes) (pdu : SMPPPDU.t)
  (t : Transport) (self : SMPPServerProtocol) :
  transport self = Some t ->
  parse_pdu data = Ok pdu ->
  ~ In (SMPPPDU.command_id pdu) dispatched_commands ->
  exists self',
    data_received data self = (Ok tt, self') /\
    responds
      (SMPPPDU.mk 0x80000000 0x00000003 (SMPPPDU.sequence_number pdu) [])
      t self self' /\
    bound self' = bound self /\ is_closing self' = is_closing self.
Proof.
  intros Ht Hparse Hother.
  destruct (parse_pdu_range _ _ Hparse) as (_ & _ & Hsq).
  destruct (send_generic_nack_Ok t self pdu Ht Hsq 3) as (self' & Hrun & Hresp);
    [ unfold U32_MAX; lia |].
  exists self'. split.
  - apply (data_received_dispatch _ _ _ _ Hparse).
    now rewrite (dispatch_other pdu self Hother).
  - split; [ exact Hresp |].
    destruct Hresp as (encoded & _ & _ & ->).
    unfold is_closing. cbn. rewrite Ht. split; [ reflexivity |].
    apply closing_after_write.
Qed.

Lemma unknown_command_nack_witness :
  exists self',
    data_received enquire_link_7 bound_connection = (Ok tt, self') /\
    responds (SMPPPDU.mk 0x80000000 0x00000003 7 []) [] bound_connection
      self' /\
    bound self' = bound bound_connection /\
    is_closing self' = is_closing bound_connection.
Proof.
  apply (unknown_command_nack enquire_link_7 (SMPPPDU.mk 0x15 0 7 []) []
           bound_connection); [ reflexivity | reflexivity |].
  unfold dispatched_commands, In. cbn. lia.
Defined.

(** C10: [deliver_sm] is in [SMPP_COMMANDS] (0x00000005), but no branch of
    [data_received] handles it: in every session it gets the [generic_nack]
    with status 0x00000003 and the request's sequence number. *)
Theorem deliver_sm_nack (data : bytes) (pdu : SMPPPDU.t)
  (t : Transport) (self : SMPPServerProtocol) :
  transport self = Some t ->
  parse_pdu data = Ok pdu ->
  Ok (SMPPPDU.command_id pdu) = SMPP_COMMANDS_at "deliver_sm" ->
  exists self',
    dispatch pdu self = send_generic_nack pdu 0x00000003 self /\
    data_received data self = (Ok tt, self') /\
    responds
      (SMPPPDU.mk 0x80000000 0x00000003 (SMPPPDU.sequence_number pdu) [])
      t self self' /\
    bound self' = bound self.
Proof.
  intros Ht Hparse Hcid.
  assert (H5 : SMPPPDU.command_id pdu = 5).
  { change (SMPP_COMMANDS_at "deliver_sm") with (Ok 5) in Hcid.
    now injection Hcid. }
  assert (Hother : ~ In (SMPPPDU.command_id pdu) dispatched_commands).
  { rewrite H5. unfold dispatched_commands, In. lia. }
  destruct (parse_pdu_range _ _ Hparse) as (_ & _ & Hsq).
  destruct (send_generic_nack_Ok t self pdu Ht Hsq 3) as (self' & Hrun & Hresp);
    [ unfold U32_MAX; lia |].
  exists self'. split; [ exact (dispatch_other pdu self Hother) |].
  split.
  - apply (data_received_dispatch _ _ _ _ Hparse).
    now rewrite (dispatch_other pdu self Hother).
  - split; [ exact Hresp |].
    destruct Hresp as (encoded & _ & _ & ->). reflexivity.
Qed.

Lemma deliver_sm_nack_witness :
  exists self',
    dispatch (SMPPPDU.mk 5 0 7 []) bound_connection
    = send_generic_nack (SMPPPDU.mk 5 0 7 []) 0x00000003 bound_connection /\
    data_received deliver_sm_7 bound_connection = (Ok tt, self') /\
    responds (SMPPPDU.mk 0x80000000 0x00000003 7 []) [] bound_connection
      self' /\
    bound self' = bound bound_connection.
Proof.
  apply (deliver_sm_nack deliver_sm_7 (SMPPPDU.mk 5 0 7 []) []
           bound_connection); reflexivity.
Defined.

(** C6 does not hold as stated: [once_bound] is a bound session (its [bound]
    flag is set, its log holds the first [bind_transceiver_resp]); a second
    [bind_transceiver] is not rejected: it gets another
    [bind_transceiver_resp] with status 0. *)
Lemma rebind_gets_bind_resp :
  bound once_bound = true /\
  transport once_bound = Some [write bind_transceiver_resp_7] /\
  parse_pdu bind_transceiver_7 = Ok (SMPPPDU.mk 0x00000009 0 7 []) /\
  data_received bind_transceiver_7 once_bound
  = (Ok tt, sent bind_transceiver_resp_7 [write bind_transceiver_resp_7]
              once_bound) /\
  parse_pdu bind_transceiver_resp_7
  = Ok (SMPPPDU.mk 0x80000009 0 7 smppserver_nul).
Proof.
  repeat split; vm_compute; reflexivity.
Qed.

(** C6, as the code has it: in a session that is already bound, a
    [bind_receiver], [bind_transmitter] or [bind_transceiver] is accepted like
    a first bind: it gets exactly one response, the matching [bind_*_resp]
    with status 0, the request's sequence number and body
    [b'smppserver\x00'], and the session stays bound, with nothing but the
    transport's log changed. *)
Theorem rebind_accepted (data : bytes) (pdu : SMPPPDU.t) (resp : Z)
  (t : Transport) (self : SMPPServerProtocol) :
  transport self = Some t ->
  bound self = true ->
  parse_pdu data = Ok pdu ->
  In (SMPPPDU.command_id pdu, resp)
    [(0x00000001, 0x80000001); (0x00000002, 0x80000002);
     (0x00000009, 0x80000009)] ->
  exists self',
    data_received data self = (Ok tt, self') /\
    responds
      (SMPPPDU.mk resp 0 (SMPPPDU.sequence_number pdu) smppserver_nul)
      t self self' /\
    bound self' = true /\ is_closing self' = is_closing self.
Proof.
  intros Ht Hbound Hparse Hin.
  assert (Hresp : bind_resp_of (SMPPPDU.command_id pdu) = Ok resp).
  { destruct Hin as [H | [H | [H | []]]]; injection H as <- <-; reflexivity. }
  destruct (parse_pdu_range _ _ Hparse) as (_ & _ & Hsq).
  destruct (dispatch_bind pdu resp Hresp) as (b & Hdispatch).
  destruct (handle_bind_Ok t self pdu Ht Hsq b resp Hresp)
    as (self' & Hrun & Hresponds).
  rewrite <- Hbound, set_bound_same in Hresponds.
  exists self'. split.
  - apply (data_received_dispatch _ _ _ _ Hparse). now rewrite Hdispatch.
  - split; [ exact Hresponds |].
    destruct Hresponds as (encoded & _ & _ & ->).
    unfold is_closing. cbn. rewrite Ht. split; [ exact Hbound |].
    apply closing_after_write.
Qed.

Lemma rebind_accepted_witness :
  exists self',
    data_received bind_transceiver_7 once_bound = (Ok tt, self') /\
    responds (SMPPPDU.mk 0x80000009 0 7 smppserver_nul)
      [write bind_transceiver_resp_7] once_bound self' /\
    bound self' = true /\ is_closing self' = is_closing once_bound.
Proof.
  apply (rebind_accepted bind_transceiver_7 (SMPPPDU.mk 9 0 7 []) 0x80000009
           [write bind_transceiver_resp_7] once_bound);
    try reflexivity.
  cbn. auto.
Defined.

(** ** Frames whose length field disagrees with the bytes received *)

(** [parse_pdu] in terms of the unpacked header of its input. *)
Lemma parse_pdu_unpacked (data : bytes) (length_field c st sq : Z) :
  unpack_IIII (firstn 16 data) = Ok (length_field, c, st, sq) ->
  16 <= len data /\
  parse_pdu data
  = Ok (SMPPPDU.mk c st sq
          (firstn (Z.to_nat (length_field - 16)) (skipn 16 data))).
Proof.
  intros Hun. pose proof (unpack_IIII_length _ _ Hun) as Hlen.
  split.
  - rewrite length_firstn in Hlen. unfold len. lia.
  - rewrite <- (firstn_skipn 16 data) at 1.
    exact (parse_pdu_header _ _ _ _ _ _ Hun).
Qed.

(** A chunk that parses is dispatched and answered. *)
Lemma data_received_answers (data : bytes) (pdu : SMPPPDU.t) (t : Transport)
  (self : SMPPServerProtocol) :
  transport self = Some t ->
  parse_pdu data = Ok pdu ->
  exists self' encoded rest,
    dispatch pdu self = (Ok tt, self') /\
    data_received data self = (Ok tt, self') /\
    transport self' = Some (t ++ write encoded :: rest).
Proof.
  intros Ht Hparse.
  destruct (parse_pdu_range _ _ Hparse) as (_ & _ & Hsq).
  destruct (dispatch_one_response pdu t self Ht Hsq)
    as (self' & encoded & response & rest & Hrun & Ht' & _).
  exists self', encoded, rest. split; [ exact Hrun |].
  split; [| exact Ht' ].
  exact (data_received_dispatch _ _ _ _ Hparse Hrun).
Qed.

(** C4 does not hold as stated: the length field of this 16-byte frame
    declares 0 bytes, yet it parses (as a [bind_transceiver] with an empty
    body), is dispatched (the session becomes bound), a response is written
    ([bind_transceiver_resp], status 0) and the transport is not closed. *)
Lemma declared_length_0_is_dispatched :
  unpack_IIII (firstn 16 bind_transceiver_7_declares_0) = Ok (0, 9, 0, 7) /\
  parse_pdu bind_transceiver_7_declares_0 = Ok (SMPPPDU.mk 9 0 7 []) /\
  data_received bind_transceiver_7_declares_0 fresh_connection
  = (Ok tt,
     sent bind_transceiver_resp_7 [] (set_bound true fresh_connection)) /\
  is_closing
    (snd (data_received bind_transceiver_7_declares_0 fresh_connection))
  = false.
Proof.
  repeat split; vm_compute; reflexivity.
Qed.

(** C4, as the code has it: what is checked is the number of bytes received,
    not the declared length.  A chunk of fewer than 16 bytes fails to decode
    ([ValueError]); the only call made on the transport is [close]: no
    response is written and no PDU is dispatched.  A chunk of at least 16
    bytes whose length field [L] is below 16 is not rejected: it decodes to a
    PDU with an empty body, which is dispatched and answered. *)
Theorem short_chunk_closes_short_length_dispatched (data : bytes)
  (t : Transport) (self : SMPPServerProtocol) :
  transport self = Some t ->
  (len data < 16 ->
   parse_pdu data = Raise ValueError /\
   data_received data self = (Ok tt, set_transport (Some (t ++ [close])) self))
  /\
  (forall L c st sq,
      unpack_IIII (firstn 16 data) = Ok (L, c, st, sq) ->
      L < 16 ->
      parse_pdu data = Ok (SMPPPDU.mk c st sq []) /\
      exists self' encoded rest,
        dispatch (SMPPPDU.mk c st sq []) self = (Ok tt, self') /\
        data_received data self = (Ok tt, self') /\
        transport self' = Some (t ++ write encoded :: rest)).
Proof.
  intros Ht. split.
  - intros Hshort. pose proof (parse_pdu_short data Hshort) as Hparse.
    split; [ exact Hparse |].
    exact (data_received_unparsed _ _ _ _ Hparse Ht).
  - intros L c st sq Hun HL.
    destruct (parse_pdu_unpacked _ _ _ _ _ Hun) as [_ Hparse].
    replace (Z.to_nat (L - 16)) with 0%nat in Hparse by lia.
    cbn [firstn] in Hparse. split; [ exact Hparse |].
    exact (data_received_answers _ _ _ _ Ht Hparse).
Qed.

Lemma short_chunk_closes_short_length_dispatched_witness :
  (parse_pdu [x00; x00; x00; x08] = Raise ValueError /\
   data_received [x00; x00; x00; x08] fresh_connection
   = (Ok tt, set_transport (Some ([] ++ [close])) fresh_connection))
  /\
  (parse_pdu bind_transceiver_7_declares_0 = Ok (SMPPPDU.mk 9 0 7 []) /\
   exists self' encoded rest,
     dispatch (SMPPPDU.mk 9 0 7 []) fresh_connection = (Ok tt, self') /\
     data_received bind_transceiver_7_declares_0 fresh_connection
     = (Ok tt, self') /\
     transport self' = Some ([] ++ write encoded :: rest)).
Proof.
  split.
  - apply (short_chunk_closes_short_length_dispatched [x00; x00; x00; x08] []
             fresh_connection); [ reflexivity | unfold len; simpl; lia ].
  - apply (short_chunk_closes_short_length_dispatched
             bind_transceiver_7_declares_0 [] fresh_connection eq_refl)
      with (L := 0); [ reflexivity | lia ].
Defined.

(** C5 does not hold as stated: there is no [NeedMoreData].  Of this frame,
    whose length field declares 20 bytes, only the 16 header bytes are in the
    buffer; it parses to a [submit_sm] whose body has 0 bytes instead of 4,
    and that PDU is dispatched and answered.  A buffer of 3 bytes makes
    [parse_pdu] raise, and the transport is closed. *)
Lemma incomplete_frame_is_dispatched :
  len submit_sm_7_declares_20 = 16 /\
  unpack_IIII (firstn 16 submit_sm_7_declares_20) = Ok (20, 4, 0, 7) /\
  parse_pdu submit_sm_7_declares_20 = Ok (SMPPPDU.mk 4 0 7 []) /\
  data_received submit_sm_7_declares_20 fresh_connection
  = (Ok tt, sent generic_nack_0B_7 [] fresh_connection) /\
  parse_pdu [x00; x00; x00] = Raise ValueError /\
  data_received [x00; x00; x00] fresh_connection
  = (Ok tt, set_transport (Some [close]) fresh_connection).
Proof.
  repeat split; vm_compute; reflexivity.
Qed.

(** C5, as the code has it: a buffer of fewer than 16 bytes makes [parse_pdu]
    raise [ValueError] (no PDU is produced, and [data_received] closes the
    transport instead of waiting for more data).  A buffer of at least 16
    bytes that holds fewer bytes than its length field [L] declares is parsed
    all the same: the body is the [len(data) - 16] bytes that follow the
    header, fewer than [L - 16], and that PDU is dispatched and answered. *)
Theorem incomplete_buffer_parsed_truncated (data : bytes) (t : Transport)
  (self : SMPPServerProtocol) :
  transport self = Some t ->
  (len data < 16 ->
   parse_pdu data = Raise ValueError /\
   data_received data self = (Ok tt, set_transport (Some (t ++ [close])) self))
  /\
  (forall L c st sq,
      unpack_IIII (firstn 16 data) = Ok (L, c, st, sq) ->
      len data < L ->
      parse_pdu data = Ok (SMPPPDU.mk c st sq (skipn 16 data)) /\
      len (skipn 16 data) = len data - 16 /\
      len (skipn 16 data) < L - 16 /\
      exists self' encoded rest,
        dispatch (SMPPPDU.mk c st sq (skipn 16 data)) self = (Ok tt, self') /\
        data_received data self = (Ok tt, self') /\
        transport self' = Some (t ++ write encoded :: rest)).
Proof.
  intros Ht. split.
  - intros Hshort. pose proof (parse_pdu_short data Hshort) as Hparse.
    split; [ exact Hparse |].
    exact (data_received_unparsed _ _ _ _ Hparse Ht).
  - intros L c st sq Hun HL.
    destruct (parse_pdu_unpacked _ _ _ _ _ Hun) as [Hlen Hparse].
    assert (Hbody : len (skipn 16 data) = len data - 16).
    { unfold len in *. rewrite length_skipn. lia. }
    rewrite firstn_all2 in Hparse
      by (rewrite length_skipn; unfold len in *; lia).
    split; [ exact Hparse |]. split; [ exact Hbody |]. split; [ lia |].
    exact (data_received_answers _ _ _ _ Ht Hparse).
Qed.

Lemma incomplete_buffer_parsed_truncated_witness :
  (parse_pdu [x00; x00; x00] = Raise ValueError /\
   data_received [x00; x00; x00] fresh_connection
   = (Ok tt, set_transport (Some ([] ++ [close])) fresh_connection))
  /\
  (parse_pdu submit_sm_7_declares_20
   = Ok (SMPPPDU.mk 4 0 7 (skipn 16 submit_sm_7_declares_20)) /\
   len (skipn 16 submit_sm_7_declares_20) = len submit_sm_7_declares_20 - 16 /\
   len (skipn 16 submit_sm_7_declares_20) < 20 - 16 /\
   exists self' encoded rest,
     dispatch (SMPPPDU.mk 4 0 7 (skipn 16 submit_sm_7_declares_20))
       fresh_connection = (Ok tt, self') /\
     data_received submit_sm_7_declares_20 fresh_connection = (Ok tt, self') /\
     transport self' = Some ([] ++ write encoded :: rest)).
Proof.
  split.
  - apply (incomplete_buffer_parsed_truncated [x00; x00; x00] []
             fresh_connection); [ reflexivity | unfold len; simpl; lia ].
  - apply (incomplete_buffer_parsed_truncated submit_sm_7_declares_20 []
             fresh_connection eq_refl);
      [ reflexivity | unfold len; simpl; lia ].
Defined.

(** * Further properties of the codec *)

Lemma byte_of_Z_of_byte (b : byte) : byte_of_Z (Z_of_byte b) = b.
Proof.
  unfold byte_of_Z, Z_of_byte. now rewrite N2Z.id, Byte.of_to_N.
Qed.

(** Four bytes unpack to a value that packs to them. *)
Lemma unpack_I_pack_I (b0 b1 b2 b3 : byte) :
  pack_I (unpack_I b0 b1 b2 b3) = Ok [b0; b1; b2; b3].
Proof.
  unfold pack_I.
  destruct (in_u32 (unpack_I b0 b1 b2 b3)) eqn:Hin;
    [| apply in_u32_false in Hin; pose proof (unpack_I_range b0 b1 b2 b3);
       tauto ].
  pose proof (Z_of_byte_range b0) as H0. pose proof (Z_of_byte_range b1) as H1.
  pose proof (Z_of_byte_range b2) as H2. pose proof (Z_of_byte_range b3) as H3.
  unfold unpack_I.
  change (2 ^ 24) with 16777216. change (2 ^ 16) with 65536.
  change (2 ^ 8) with 256.
  set (v := Z_of_byte b0 * 16777216 + Z_of_byte b1 * 65536
            + Z_of_byte b2 * 256 + Z_of_byte b3).
  assert (E0 : v / 16777216 mod 256 = Z_of_byte b0)
    by (subst v; Z.div_mod_to_equations; lia).
  assert (E1 : v / 65536 mod 256 = Z_of_byte b1)
    by (subst v; Z.div_mod_to_equations; lia).
  assert (E2 : v / 256 mod 256 = Z_of_byte b2)
    by (subst v; Z.div_mod_to_equations; lia).
  assert (E3 : v mod 256 = Z_of_byte b3)
    by (subst v; Z.div_mod_to_equations; lia).
  rewrite E0, E1, E2, E3. now rewrite !byte_of_Z_of_byte.
Qed.

Lemma unpack_IIII_pack_IIII (buf : bytes) (a b c d : Z) :
  unpack_IIII buf = Ok (a, b, c, d) -> pack_IIII a b c d = Ok buf.
Proof.
  unfold unpack_IIII.
  do 17 (destruct buf as [| ? buf ]; try discriminate).
  intros H. injection H as <- <- <- <-.
  unfold pack_IIII. now rewrite !unpack_I_pack_I.
Qed.

(** [encode] succeeds only on values that fit. *)
Lemma encode_Ok_fits (pdu : SMPPPDU.t) (encoded : bytes) :
  SMPPPDU.encode pdu = Ok encoded ->
  (16 + len (SMPPPDU.body pdu) <= U32_MAX) /\
  (0 <= SMPPPDU.command_id pdu <= U32_MAX) /\
  (0 <= SMPPPDU.command_status pdu <= U32_MAX) /\
  (0 <= SMPPPDU.sequence_number pdu <= U32_MAX).
Proof.
  unfold SMPPPDU.encode, pack_IIII, pack_I.
  destruct (in_u32 (16 + len (SMPPPDU.body pdu))) eqn:Hl;
    [| discriminate ].
  destruct (in_u32 (SMPPPDU.command_id pdu)) eqn:Hc; [| discriminate ].
  destruct (in_u32 (SMPPPDU.command_status pdu)) eqn:Hst; [| discriminate ].
  destruct (in_u32 (SMPPPDU.sequence_number pdu)) eqn:Hsq; [| discriminate ].
  intros _. apply in_u32_true in Hl, Hc, Hst, Hsq. tauto.
Qed.

(** X1: the bytes [encode] returns are a 16-byte header followed by the body
    verbatim; the header's length field is the total number of bytes
    returned, and its other three fields are the PDU's. *)
Theorem encode_frame_layout (pdu : SMPPPDU.t) (encoded : bytes) :
  SMPPPDU.encode pdu = Ok encoded ->
  len encoded = 16 + len (SMPPPDU.body pdu) /\
  unpack_IIII (firstn 16 encoded)
  = Ok (len encoded, SMPPPDU.command_id pdu, SMPPPDU.command_status pdu,
        SMPPPDU.sequence_number pdu) /\
  skipn 16 encoded = SMPPPDU.body pdu.
Proof.
  intros Henc.
  destruct (encode_Ok_fits _ _ Henc) as (Hlen & Hc & Hst & Hsq).
  destruct (encode_Ok pdu Hc Hst Hsq Hlen) as (header & Henc' & Hun).
  rewrite Henc' in Henc. injection Henc as <-.
  pose proof (unpack_IIII_length _ _ Hun) as Hheader.
  assert (Htotal : len (header ++ SMPPPDU.body pdu)
                   = 16 + len (SMPPPDU.body pdu)).
  { rewrite len_app. unfold len at 1. rewrite Hheader. reflexivity. }
  split; [ exact Htotal |]. split.
  - rewrite Htotal, <- Hheader, firstn_app, Nat.sub_diag, firstn_all.
    cbn [firstn]. now rewrite app_nil_r.
  - rewrite <- Hheader, skipn_app, skipn_all, Nat.sub_diag. reflexivity.
Qed.

Lemma encode_frame_layout_witness :
  len generic_nack_0B_7 = 16 + len (@nil byte) /\
  unpack_IIII (firstn 16 generic_nack_0B_7)
  = Ok (len generic_nack_0B_7, 0x80000000, 0x0000000B, 7) /\
  skipn 16 generic_nack_0B_7 = [].
Proof.
  apply (encode_frame_layout (SMPPPDU.mk 0x80000000 0x0000000B 7 [])
           generic_nack_0B_7).
  reflexivity.
Defined.

(** X2: [encode] returns bytes exactly when the encoded length and the three
    header fields are 32-bit unsigned values; otherwise it raises
    [struct.error], and it raises nothing else. *)
Theorem encode_raises_iff (pdu : SMPPPDU.t) :
  (encodable pdu = true <-> exists encoded, SMPPPDU.encode pdu = Ok encoded) /\
  (encodable pdu = false <-> SMPPPDU.encode pdu = Raise StructError) /\
  (forall e, SMPPPDU.encode pdu = Raise e -> e = StructError).
Proof.
  assert (Hyes : encodable pdu = true ->
                 exists encoded, SMPPPDU.encode pdu = Ok encoded).
  { unfold encodable. rewrite !andb_true_iff, !in_u32_true.
    intros [[[Hlen Hc] Hst] Hsq].
    destruct (encode_Ok pdu Hc Hst Hsq (proj2 Hlen)) as (header & Henc & _).
    eauto. }
  assert (Hno : encodable pdu = false ->
                SMPPPDU.encode pdu = Raise StructError).
  { unfold encodable, SMPPPDU.encode, pack_IIII, pack_I.
    destruct (in_u32 (16 + len (SMPPPDU.body pdu))); [| reflexivity ].
    destruct (in_u32 (SMPPPDU.command_id pdu)); [| reflexivity ].
    destruct (in_u32 (SMPPPDU.command_status pdu)); [| reflexivity ].
    destruct (in_u32 (SMPPPDU.sequence_number pdu)); [| reflexivity ].
    discriminate. }
  split; [| split ].
  - split; [ exact Hyes |]. intros [encoded Henc].
    destruct (encodable pdu); [ reflexivity |].
    rewrite Hno in Henc by reflexivity. discriminate.
  - split; [ exact Hno |]. intros Henc.
    destruct (encodable pdu); [| reflexivity ].
    destruct Hyes as [encoded Henc']; [ reflexivity |]. congruence.
  - intros e Henc. destruct (encodable pdu) eqn:Hfit.
    + destruct (Hyes eq_refl) as [encoded Henc']. congruence.
    + rewrite (Hno eq_refl) in Henc. congruence.
Qed.

(** X3: two PDUs with the same encoding are the same PDU. *)
Theorem encode_injective (pdu1 pdu2 : SMPPPDU.t) (encoded : bytes) :
  SMPPPDU.encode pdu1 = Ok encoded ->
  SMPPPDU.encode pdu2 = Ok encoded ->
  pdu1 = pdu2.
Proof.
  intros H1 H2.
  destruct (encode_Ok_fits _ _ H1) as (_ & Hc1 & Hst1 & Hsq1).
  destruct (encode_Ok_fits _ _ H2) as (_ & Hc2 & Hst2 & Hsq2).
  pose proof (parse_pdu_encode pdu1 _ Hc1 Hst1 Hsq1 H1) as P1.
  pose proof (parse_pdu_encode pdu2 _ Hc2 Hst2 Hsq2 H2) as P2.
  congruence.
Qed.

Lemma encode_injective_witness :
  SMPPPDU.mk 0x80000000 0x0B 7 [] = SMPPPDU.mk 0x80000000 0x0B 7 [].
Proof.
  apply (encode_injective _ _ generic_nack_0B_7); reflexivity.
Defined.

(** X4: [parse_pdu] raises exactly on a chunk of fewer than 16 bytes, and then
    it is [ValueError]; every chunk of 16 bytes or more parses, whatever its
    bytes are. *)
Theorem parse_pdu_raises_iff (data : bytes) :
  (forall e, parse_pdu data = Raise e <-> len data < 16 /\ e = ValueError) /\
  (16 <= len data <-> exists pdu, parse_pdu data = Ok pdu).
Proof.
  assert (Hlong : 16 <= len data -> exists pdu, parse_pdu data = Ok pdu).
  { intros Hlen. destruct (split_header data Hlen) as [Hheader Hsplit].
    destruct (unpack_IIII (firstn 16 data)) as [[[[l c] st] sq] | e] eqn:Hun.
    - destruct (parse_pdu_unpacked _ _ _ _ _ Hun) as [_ Hparse]. eauto.
    - exfalso. revert Hun. unfold unpack_IIII.
      do 16 (destruct data as [| ? data ]; cbn in Hheader; try discriminate). }
  split.
  - intros e. split.
    + intros Hraise. destruct (Z.ltb_spec (len data) 16) as [Hshort | Hlen].
      * rewrite (parse_pdu_short _ Hshort) in Hraise. split; congruence.
      * destruct (Hlong Hlen) as [pdu Hparse]. congruence.
    + intros [Hshort ->]. now apply parse_pdu_short.
  - split; [ exact Hlong |]. intros [pdu Hparse].
    destruct (parse_pdu_Ok _ _ Hparse) as (l & Hlen & _). exact Hlen.
Qed.

(** X5: [parse_pdu] reads one PDU from the front of a chunk and ignores what
    follows it: bytes appended to an encoded PDU, such as a second request
    arriving in the same chunk, change neither the parsed PDU nor what
    [data_received] does. *)
Theorem trailing_bytes_ignored (pdu : SMPPPDU.t) (encoded extra : bytes)
  (self : SMPPServerProtocol) :
  SMPPPDU.encode pdu = Ok encoded ->
  parse_pdu (encoded ++ extra) = Ok pdu /\
  data_received (encoded ++ extra) self = data_received encoded self.
Proof.
  intros Henc.
  destruct (encode_Ok_fits _ _ Henc) as (Hlen & Hc & Hst & Hsq).
  destruct (encode_Ok pdu Hc Hst Hsq Hlen) as (header & Henc' & Hun).
  assert (Hparse : parse_pdu (encoded ++ extra) = Ok pdu).
  { rewrite Henc' in Henc. injection Henc as <-.
    rewrite <- app_assoc, (parse_pdu_header _ _ _ _ _ _ Hun).
    replace (Z.to_nat (16 + len (SMPPPDU.body pdu) - 16))
      with (length (SMPPPDU.body pdu) + 0)%nat by (unfold len; lia).
    rewrite firstn_app_2. cbn [firstn]. rewrite app_nil_r.
    now destruct pdu. }
  split; [ exact Hparse |].
  rewrite (data_received_parsed _ _ _ Hparse).
  now rewrite (data_received_parsed _ _ _
                 (parse_pdu_encode pdu _ Hc Hst Hsq Henc)).
Qed.

Lemma trailing_bytes_ignored_witness :
  parse_pdu (submit_sm_7 ++ unbind_7) = Ok (SMPPPDU.mk 4 0 7 []) /\
  data_received (submit_sm_7 ++ unbind_7) bound_connection
  = data_received submit_sm_7 bound_connection.
Proof.
  apply (trailing_bytes_ignored (SMPPPDU.mk 4 0 7 []) submit_sm_7 unbind_7
           bound_connection).
  reflexivity.
Defined.

(** X6: a chunk whose length field equals the number of bytes in the chunk
    parses to a PDU that encodes back to exactly that chunk. *)
Theorem parse_then_encode (data : bytes) (c st sq : Z) :
  unpack_IIII (firstn 16 data) = Ok (len data, c, st, sq) ->
  parse_pdu data = Ok (SMPPPDU.mk c st sq (skipn 16 data)) /\
  SMPPPDU.encode (SMPPPDU.mk c st sq (skipn 16 data)) = Ok data.
Proof.
  intros Hun.
  destruct (parse_pdu_unpacked _ _ _ _ _ Hun) as [Hlen Hparse].
  assert (Hbody : len (skipn 16 data) = len data - 16).
  { unfold len in *. rewrite length_skipn. lia. }
  rewrite firstn_all2 in Hparse
    by (rewrite length_skipn; unfold len in *; lia).
  split; [ exact Hparse |].
  unfold SMPPPDU.encode. cbn [SMPPPDU.body SMPPPDU.command_id
                               SMPPPDU.command_status SMPPPDU.sequence_number].
  replace (16 + len (skipn 16 data)) with (len data) by lia.
  rewrite (unpack_IIII_pack_IIII _ _ _ _ _ Hun). cbn [rbind].
  now rewrite firstn_skipn.
Qed.

Lemma parse_then_encode_witness :
  parse_pdu bind_transceiver_resp_7
  = Ok (SMPPPDU.mk 0x80000009 0 7 (skipn 16 bind_transceiver_resp_7)) /\
  SMPPPDU.encode (SMPPPDU.mk 0x80000009 0 7 (skipn 16 bind_transceiver_resp_7))
  = Ok bind_transceiver_resp_7.
Proof.
  apply (parse_then_encode bind_transceiver_resp_7 0x80000009 0 7).
  reflexivity.
Defined.

(** X7: the body [parse_pdu] returns is a prefix of the bytes after the
    header, and its length is the declared length minus 16, clamped between 0
    and the number of bytes present after the header. *)
Theorem parse_pdu_body_length (data : bytes) (pdu : SMPPPDU.t) :
  parse_pdu data = Ok pdu ->
  exists L rest,
    unpack_IIII (firstn 16 data)
    = Ok (L, SMPPPDU.command_id pdu, SMPPPDU.command_status pdu,
          SMPPPDU.sequence_number pdu) /\
    skipn 16 data = SMPPPDU.body pdu ++ rest /\
    len (SMPPPDU.body pdu) = Z.max 0 (Z.min (L - 16) (len data - 16)).
Proof.
  intros Hparse.
  destruct (parse_pdu_Ok _ _ Hparse) as (L & Hlen & Hun & Hbody).
  exists L, (skipn (Z.to_nat (L - 16)) (skipn 16 data)).
  split; [ exact Hun |]. rewrite Hbody. split.
  - symmetry. apply firstn_skipn.
  - unfold len in *. rewrite length_firstn, length_skipn. lia.
Qed.

Lemma parse_pdu_body_length_witness :
  exists L rest,
    unpack_IIII (firstn 16 submit_sm_7_declares_20) = Ok (L, 4, 0, 7) /\
    skipn 16 submit_sm_7_declares_20 = [] ++ rest /\
    len (@nil byte)
    = Z.max 0 (Z.min (L - 16) (len submit_sm_7_declares_20 - 16)).
Proof.
  apply (parse_pdu_body_length submit_sm_7_declares_20 (SMPPPDU.mk 4 0 7 [])).
  reflexivity.
Defined.

(** * Further properties of the command table *)

(** X8: looking a name of [SMPP_COMMANDS] up and converting the id back with
    [command_id_to_name] returns the name: no two names of the table share an
    id. *)
Theorem command_id_to_name_of_command (name : string) (id : Z) :
  SMPP_COMMANDS_at name = Ok id -> command_id_to_name id = name.
Proof.
  unfold SMPP_COMMANDS_at, SMPP_COMMANDS, getitem.
  repeat (match goal with
          | |- context [String.eqb ?k name] =>
              destruct (String.eqb_spec k name) as [<- | _];
              [ intros H; injection H as <-; reflexivity |]
          end).
  discriminate.
Qed.

Lemma command_id_to_name_of_command_witness :
  command_id_to_name 0x80000004 = "submit_sm_resp"%string.
Proof.
  apply (command_id_to_name_of_command "submit_sm_resp" 0x80000004).
  reflexivity.
Defined.






(** * Further properties of the dispatcher *)

Lemma set_bound_eq (b : bool) (self : SMPPServerProtocol) :
  bound self = b -> set_bound b self = self.
Proof. intros <-. apply set_bound_same. Qed.

(** One call of [data_received] on a chunk that parses, in full: the response
    written, the calls made on the transport and the flag left. *)
Lemma data_received_step (data : bytes) (pdu : SMPPPDU.t) (t : Transport)
  (self : SMPPServerProtocol) :
  transport self = Some t ->
  parse_pdu data = Ok pdu ->
  exists encoded,
    SMPPPDU.encode (response_to (bound self) pdu) = Ok encoded /\
    parse_pdu encoded = Ok (response_to (bound self) pdu) /\
    data_received data self
    = (Ok tt,
       set_transport
         (Some (t ++ calls_for (SMPPPDU.command_id pdu) encoded))
         (set_bound (bound_after (bound self) (SMPPPDU.command_id pdu))
            self)).
Proof.
  intros Ht Hparse.
  destruct (parse_pdu_range _ _ Hparse) as (_ & _ & Hsq).
  assert (Hbind : forall b resp,
             bind_resp_of (SMPPPDU.command_id pdu) = Ok resp ->
             dispatch pdu = handle_bind pdu b ->
             exists encoded,
               SMPPPDU.encode
                 (SMPPPDU.mk resp 0 (SMPPPDU.sequence_number pdu)
                    smppserver_nul) = Ok encoded /\
               parse_pdu encoded
               = Ok (SMPPPDU.mk resp 0 (SMPPPDU.sequence_number pdu)
                       smppserver_nul) /\
               data_received data self
               = (Ok tt,
                  set_transport (Some (t ++ [write encoded]))
                    (set_bound true self))).
  { intros b resp Hresp Hdispatch.
    destruct (handle_bind_Ok t self pdu Ht Hsq b resp Hresp)
      as (self' & Hrun & encoded & Henc & Hback & ->).
    exists encoded. split; [ exact Henc |]. split; [ exact Hback |].
    apply (data_received_dispatch _ _ _ _ Hparse). now rewrite Hdispatch. }
  unfold response_to, bound_after, calls_for, is_bind.
  destruct (Z.eqb_spec (SMPPPDU.command_id pdu) 1) as [E1 | N1].
  { rewrite E1. apply (Hbind false); [ now rewrite E1 |].
    now apply dispatch_bind_receiver. }
  destruct (Z.eqb_spec (SMPPPDU.command_id pdu) 2) as [E2 | N2].
  { rewrite E2. apply (Hbind false); [ now rewrite E2 |].
    now apply dispatch_bind_transmitter. }
  destruct (Z.eqb_spec (SMPPPDU.command_id pdu) 9) as [E9 | N9].
  { rewrite E9. apply (Hbind true); [ now rewrite E9 |].
    now apply dispatch_bind_transceiver. }
  cbn [orb].
  destruct (Z.eqb_spec (SMPPPDU.command_id pdu) 4) as [E4 | N4].
  { rewrite E4. change (4 =? 6) with false. cbv iota.
    rewrite (set_bound_eq _ _ eq_refl).
    destruct (bound self) eqn:Hbound.
    - destruct (handle_submit_sm_bound t self pdu Ht Hsq Hbound)
        as (self' & Hrun & encoded & Henc & Hback & ->).
      exists encoded. split; [ exact Henc |]. split; [ exact Hback |].
      apply (data_received_dispatch _ _ _ _ Hparse).
      now rewrite (dispatch_submit_sm pdu E4).
    - destruct (handle_submit_sm_unbound t self pdu Ht Hsq Hbound)
        as (self' & Hrun & encoded & Henc & Hback & ->).
      exists encoded. split; [ exact Henc |]. split; [ exact Hback |].
      apply (data_received_dispatch _ _ _ _ Hparse).
      now rewrite (dispatch_submit_sm pdu E4). }
  destruct (Z.eqb_spec (SMPPPDU.command_id pdu) 6) as [E6 | N6].
  { destruct (handle_unbind_Ok t self pdu Ht Hsq)
      as (encoded & Henc & Hback & Hrun).
    exists encoded. split; [ exact Henc |]. split; [ exact Hback |].
    apply (data_received_dispatch _ _ _ _ Hparse).
    rewrite (dispatch_unbind pdu E6), Hrun.
    unfold Transport_close, Transport_write. now rewrite <- app_assoc. }
  assert (Hother : ~ In (SMPPPDU.command_id pdu) dispatched_commands).
  { unfold dispatched_commands, In. lia. }
  rewrite (set_bound_eq _ _ eq_refl).
  destruct (send_generic_nack_Ok t self pdu Ht Hsq 3)
    as (self' & Hrun & encoded & Henc & Hback & ->);
    [ unfold U32_MAX; lia |].
  exists encoded. split; [ exact Henc |]. split; [ exact Hback |].
  apply (data_received_dispatch _ _ _ _ Hparse).
  now rewrite (dispatch_other pdu self Hother).
Qed.

Lemma written_app (t1 t2 : Transport) :
  written (t1 ++ t2) = written t1 ++ written t2.
Proof.
  induction t1 as [| [data |] t1 IH ]; cbn; [ reflexivity | | exact IH ].
  now rewrite IH.
Qed.

Lemma closing_app (t1 t2 : Transport) :
  closing (t1 ++ t2) = closing t1 || closing t2.
Proof.
  induction t1 as [| [data |] t1 IH ]; cbn; auto.
Qed.

Lemma closing_calls_for (command_id : Z) (encoded : bytes) :
  closing (calls_for command_id encoded) = (command_id =? 0x00000006).
Proof.
  unfold calls_for. now destruct (command_id =? 6).
Qed.

Lemma written_calls_for (command_id : Z) (encoded : bytes) :
  written (calls_for command_id encoded) = [encoded].
Proof.
  unfold calls_for. now destruct (command_id =? 6).
Qed.

(** X10: in a bound session, a [submit_sm] gets exactly one response,
    [submit_sm_resp] (0x80000004) with status 0, the request's sequence number
    and body [b'message_id_123\x00'], whatever the request's body is; the
    session stays bound and the transport open. *)
Theorem submit_sm_when_bound (data : bytes) (pdu : SMPPPDU.t)
  (t : Transport) (self : SMPPServerProtocol) :
  transport self = Some t ->
  bound self = true ->
  parse_pdu data = Ok pdu ->
  SMPPPDU.command_id pdu = 0x00000004 ->
  exists self',
    data_received data self = (Ok tt, self') /\
    responds
      (SMPPPDU.mk 0x80000004 0 (SMPPPDU.sequence_number pdu)
         (list_byte_of_string "message_id_123" ++ [x00]))
      t self self' /\
    bound self' = true /\ is_closing self' = is_closing self.
Proof.
  intros Ht Hbound Hparse Hcid.
  destruct (parse_pdu_range _ _ Hparse) as (_ & _ & Hsq).
  destruct (handle_submit_sm_bound t self pdu Ht Hsq Hbound)
    as (self' & Hrun & Hresp).
  exists self'. split.
  - apply (data_received_dispatch _ _ _ _ Hparse).
    now rewrite (dispatch_submit_sm pdu Hcid).
  - split; [ exact Hresp |].
    destruct Hresp as (encoded & _ & _ & ->).
    unfold is_closing. cbn. rewrite Ht. split; [ exact Hbound |].
    apply closing_after_write.
Qed.

Lemma submit_sm_when_bound_witness :
  exists self',
    data_received submit_sm_7 bound_connection = (Ok tt, self') /\
    responds
      (SMPPPDU.mk 0x80000004 0 7
         (list_byte_of_string "message_id_123" ++ [x00]))
      [] bound_connection self' /\
    bound self' = true /\ is_closing self' = is_closing bound_connection.
Proof.
  apply (submit_sm_when_bound submit_sm_7 (SMPPPDU.mk 4 0 7 []) []
           bound_connection); reflexivity.
Defined.

(** X11: every bind request ([bind_receiver], [bind_transmitter],
    [bind_transceiver]) is accepted, whatever the session's state and the
    request's body: the response is the request's command id with the high
    bit set, status 0, the request's sequence number and body
    [b'smppserver\x00'], and the session is bound afterwards. *)
Theorem bind_always_accepted (data : bytes) (pdu : SMPPPDU.t)
  (t : Transport) (self : SMPPServerProtocol) :
  transport self = Some t ->
  parse_pdu data = Ok pdu ->
  In (SMPPPDU.command_id pdu) [0x00000001; 0x00000002; 0x00000009] ->
  exists self',
    data_received data self = (Ok tt, self') /\
    responds
      (SMPPPDU.mk (Z.lor (SMPPPDU.command_id pdu) 0x80000000) 0
         (SMPPPDU.sequence_number pdu) smppserver_nul)
      t (set_bound true self) self' /\
    bound self' = true /\ is_closing self' = is_closing self.
Proof.
  intros Ht Hparse Hin.
  destruct (parse_pdu_range _ _ Hparse) as (_ & _ & Hsq).
  assert (Hresp : bind_resp_of (SMPPPDU.command_id pdu)
                  = Ok (Z.lor (SMPPPDU.command_id pdu) 0x80000000)).
  { destruct Hin as [<- | [<- | [<- | []]]]; reflexivity. }
  destruct (dispatch_bind pdu _ Hresp) as (b & Hdispatch).
  destruct (handle_bind_Ok t self pdu Ht Hsq b _ Hresp)
    as (self' & Hrun & Hresponds).
  exists self'. split.
  - apply (data_received_dispatch _ _ _ _ Hparse). now rewrite Hdispatch.
  - split; [ exact Hresponds |].
    destruct Hresponds as (encoded & _ & _ & ->).
    unfold is_closing. cbn. rewrite Ht. split; [ reflexivity |].
    apply closing_after_write.
Qed.

(** [bind_receiver], sequence number 7, with a body. *)
Lemma bind_always_accepted_witness :
  exists self',
    data_received
      ([x00; x00; x00; x12;  x00; x00; x00; x01;
        x00; x00; x00; x00;  x00; x00; x00; x07;  x75; x00])
      fresh_connection = (Ok tt, self') /\
    responds (SMPPPDU.mk (Z.lor 1 0x80000000) 0 7 smppserver_nul)
      [] (set_bound true fresh_connection) self' /\
    bound self' = true /\ is_closing self' = is_closing fresh_connection.
Proof.
  apply (bind_always_accepted _ (SMPPPDU.mk 1 0 7 [x75; x00]) []
           fresh_connection); [ reflexivity | reflexivity |].
  cbn. auto.
Defined.

(** X12: [handle_unbind] does not look at the [bound] flag: in a session that
    never bound, an [unbind] still gets [unbind_resp] with status 0 and the
    request's sequence number, and the transport is closed right after the
    write; the flag stays [False]. *)
Theorem unbind_without_bind (data : bytes) (pdu : SMPPPDU.t)
  (t : Transport) (self : SMPPServerProtocol) :
  transport self = Some t ->
  bound self = false ->
  parse_pdu data = Ok pdu ->
  SMPPPDU.command_id pdu = 0x00000006 ->
  exists encoded,
    parse_pdu encoded
    = Ok (SMPPPDU.mk 0x80000006 0 (SMPPPDU.sequence_number pdu) []) /\
    data_received data self
    = (Ok tt, set_transport (Some (t ++ [write encoded; close])) self).
Proof.
  intros Ht Hbound Hparse Hcid.
  destruct (data_received_step data pdu t self Ht Hparse)
    as (encoded & _ & Hback & Hrun).
  revert Hback Hrun.
  unfold response_to, bound_after, calls_for, is_bind. rewrite Hcid.
  cbn [Z.eqb Pos.eqb orb]. rewrite (set_bound_eq _ _ Hbound).
  intros Hback Hrun. exists encoded. split; assumption.
Qed.

Lemma unbind_without_bind_witness :
  exists encoded,
    parse_pdu encoded = Ok (SMPPPDU.mk 0x80000006 0 7 []) /\
    data_received unbind_7 fresh_connection
    = (Ok tt,
       set_transport (Some ([] ++ [write encoded; close])) fresh_connection).
Proof.
  apply (unbind_without_bind unbind_7 (SMPPPDU.mk 6 0 7 []) []
           fresh_connection); reflexivity.
Defined.

(** What a call of [data_received] leaves of a connected session, whether the
    chunk parses or not. *)
Lemma data_received_connected (data : bytes) (t : Transport)
  (self : SMPPServerProtocol) :
  transport self = Some t ->
  exists new,
    data_received data self
    = (Ok tt,
       set_transport (Some (t ++ new))
         (set_bound
            match parse_pdu data with
            | Ok pdu => bound_after (bound self) (SMPPPDU.command_id pdu)
            | Raise _ => bound self
            end self)) /\
    closing new
    = match parse_pdu data with
      | Ok pdu => SMPPPDU.command_id pdu =? 0x00000006
      | Raise _ => true
      end /\
    length (written new)
    = match parse_pdu data with Ok _ => 1%nat | Raise _ => 0%nat end.
Proof.
  intros Ht. destruct (parse_pdu data) as [pdu | e] eqn:Hparse.
  - destruct (data_received_step data pdu t self Ht Hparse)
      as (encoded & _ & _ & Hrun).
    exists (calls_for (SMPPPDU.command_id pdu) encoded).
    split; [ exact Hrun |].
    now rewrite closing_calls_for, written_calls_for.
  - exists [close]. rewrite set_bound_same.
    split; [ exact (data_received_unparsed _ _ _ _ Hparse Ht) |].
    split; reflexivity.
Qed.

(** X13: the [bound] flag after [data_received]: set by any of the three
    bind requests, cleared by [unbind], and left as it was by every other
    command and by a chunk that does not parse. *)
Theorem bound_after_data_received (data : bytes) (t : Transport)
  (self : SMPPServerProtocol) :
  transport self = Some t ->
  bound (snd (data_received data self))
  = match parse_pdu data with
    | Ok pdu =>
        let command_id := SMPPPDU.command_id pdu in
        if (command_id =? 1) || (command_id =? 2) || (command_id =? 9)
        then true
        else if command_id =? 6 then false
        else bound self
    | Raise _ => bound self
    end.
Proof.
  intros Ht.
  destruct (data_received_connected data t self Ht) as (new & -> & _).
  reflexivity.
Qed.

Lemma bound_after_data_received_witness :
  bound (snd (data_received bind_transceiver_7 fresh_connection))
  = match parse_pdu bind_transceiver_7 with
    | Ok pdu =>
        let command_id := SMPPPDU.command_id pdu in
        if (command_id =? 1) || (command_id =? 2) || (command_id =? 9)
        then true
        else if command_id =? 6 then false
        else bound fresh_connection
    | Raise _ => bound fresh_connection
    end.
Proof.
  apply (bound_after_data_received bind_transceiver_7 [] fresh_connection).
  reflexivity.
Defined.

(** X14: [data_received] closes the transport in exactly two cases: the chunk
    does not parse, or it is an [unbind].  Bind requests, [submit_sm] in
    either state and unknown commands leave an open transport open. *)
Theorem closing_after_data_received (data : bytes) (t : Transport)
  (self : SMPPServerProtocol) :
  transport self = Some t ->
  is_closing (snd (data_received data self))
  = is_closing self
    || match parse_pdu data with
       | Ok pdu => SMPPPDU.command_id pdu =? 0x00000006
       | Raise _ => true
       end.
Proof.
  intros Ht.
  destruct (data_received_connected data t self Ht) as (new & -> & <- & _).
  unfold is_closing. cbn. rewrite Ht. apply closing_app.
Qed.

Lemma closing_after_data_received_witness :
  is_closing (snd (data_received enquire_link_7 bound_connection))
  = is_closing bound_connection
    || match parse_pdu enquire_link_7 with
       | Ok pdu => SMPPPDU.command_id pdu =? 0x00000006
       | Raise _ => true
       end.
Proof.
  apply (closing_after_data_received enquire_link_7 [] bound_connection).
  reflexivity.
Defined.

(** X15: on a connected session [data_received] never raises, whatever the
    bytes: it returns normally, only appends to the transport's log, makes at
    most one [write], and leaves [system_id], [sequence_number] and
    [valid_credentials] untouched. *)
Theorem data_received_never_raises (data : bytes) (t : Transport)
  (self : SMPPServerProtocol) :
  transport self = Some t ->
  exists self' new,
    data_received data self = (Ok tt, self') /\
    transport self' = Some (t ++ new) /\
    (length (written new) <= 1)%nat /\
    system_id self' = system_id self /\
    sequence_number self' = sequence_number self /\
    valid_credentials self' = valid_credentials self.
Proof.
  intros Ht.
  destruct (data_received_connected data t self Ht)
    as (new & Hrun & _ & Hwritten).
  eexists _, new. split; [ exact Hrun |]. split; [ reflexivity |].
  split; [| repeat split ].
  rewrite Hwritten. destruct (parse_pdu data); lia.
Qed.

Lemma data_received_never_raises_witness :
  exists self' new,
    data_received [xff] fresh_connection = (Ok tt, self') /\
    transport self' = Some ([] ++ new) /\
    (length (written new) <= 1)%nat /\
    system_id self' = system_id fresh_connection /\
    sequence_number self' = sequence_number fresh_connection /\
    valid_credentials self' = valid_credentials fresh_connection.
Proof.
  apply (data_received_never_raises [xff] [] fresh_connection).
  reflexivity.
Defined.

(** X16: whatever the request, the PDU written in answer is a response: its
    command id has the high bit set, its status is 0, 0x00000003 or
    0x0000000B (never 0x0000000D, since [authenticate] accepts everything),
    the status is non-zero exactly when the response is a [generic_nack], and
    a [generic_nack] has an empty body. *)
Theorem responses_are_responses (data : bytes) (pdu : SMPPPDU.t)
  (t : Transport) (self : SMPPServerProtocol) :
  transport self = Some t ->
  parse_pdu data = Ok pdu ->
  exists self' encoded response rest,
    data_received data self = (Ok tt, self') /\
    transport self' = Some (t ++ write encoded :: rest) /\
    written rest = [] /\
    parse_pdu encoded = Ok response /\
    0x80000000 <= SMPPPDU.command_id response <= U32_MAX /\
    In (SMPPPDU.command_status response) [0; 0x00000003; 0x0000000B] /\
    (SMPPPDU.command_status response <> 0 <->
     SMPPPDU.command_id response = 0x80000000) /\
    (SMPPPDU.command_id response = 0x80000000 ->
     SMPPPDU.body response = []).
Proof.
  intros Ht Hparse.
  destruct (data_received_step data pdu t self Ht Hparse)
    as (encoded & _ & Hback & Hrun).
  exists (set_transport
            (Some (t ++ calls_for (SMPPPDU.command_id pdu) encoded))
            (set_bound (bound_after (bound self) (SMPPPDU.command_id pdu))
               self)),
    encoded, (response_to (bound self) pdu),
    (if SMPPPDU.command_id pdu =? 6 then [close] else []).
  split; [ exact Hrun |]. split.
  { unfold calls_for. now destruct (SMPPPDU.command_id pdu =? 6). }
  split; [ now destruct (SMPPPDU.command_id pdu =? 6) |].
  split; [ exact Hback |].
  unfold response_to, is_bind, U32_MAX.
  destruct (Z.eqb_spec (SMPPPDU.command_id pdu) 1) as [-> | _];
    [ cbn; intuition (try lia; try discriminate) |].
  destruct (Z.eqb_spec (SMPPPDU.command_id pdu) 2) as [-> | _];
    [ cbn; intuition (try lia; try discriminate) |].
  destruct (Z.eqb_spec (SMPPPDU.command_id pdu) 9) as [-> | _];
    [ cbn; intuition (try lia; try discriminate) |].
  destruct (SMPPPDU.command_id pdu =? 4), (bound self),
    (SMPPPDU.command_id pdu =? 6);
    cbn; intuition (try lia; try discriminate).
Qed.

Lemma responses_are_responses_witness :
  exists self' encoded response rest,
    data_received submit_sm_7 fresh_connection = (Ok tt, self') /\
    transport self' = Some ([] ++ write encoded :: rest) /\
    written rest = [] /\
    parse_pdu encoded = Ok response /\
    0x80000000 <= SMPPPDU.command_id response <= U32_MAX /\
    In (SMPPPDU.command_status response) [0; 0x00000003; 0x0000000B] /\
    (SMPPPDU.command_status response <> 0 <->
     SMPPPDU.command_id response = 0x80000000) /\
    (SMPPPDU.command_id response = 0x80000000 ->
     SMPPPDU.body response = []).
Proof.
  apply (responses_are_responses submit_sm_7 (SMPPPDU.mk 4 0 7 []) []
           fresh_connection); reflexivity.
Defined.

(** X17: of a request, the handlers read only the command id and the
    sequence number.  Two chunks that parse to PDUs with the same command id
    and sequence number are handled identically, whatever their bodies and
    status fields: in particular the credentials in a bind request's body
    are never looked at. *)
Theorem request_body_and_status_ignored (data1 data2 : bytes)
  (pdu1 pdu2 : SMPPPDU.t) (self : SMPPServerProtocol) :
  parse_pdu data1 = Ok pdu1 ->
  parse_pdu data2 = Ok pdu2 ->
  SMPPPDU.command_id pdu1 = SMPPPDU.command_id pdu2 ->
  SMPPPDU.sequence_number pdu1 = SMPPPDU.sequence_number pdu2 ->
  data_received data1 self = data_received data2 self.
Proof.
  intros H1 H2 Hcid Hsq.
  rewrite (data_received_parsed _ _ _ H1), (data_received_parsed _ _ _ H2).
  destruct pdu1 as [c1 st1 sq1 b1], pdu2 as [c2 st2 sq2 b2].
  cbn in Hcid, Hsq. subst c2 sq2. reflexivity.
Qed.

Lemma request_body_and_status_ignored_witness :
  data_received
    ([x00; x00; x00; x12;  x00; x00; x00; x01;
      x00; x00; x00; x05;  x00; x00; x00; x07;  x75; x00])
    fresh_connection
  = data_received
      ([x00; x00; x00; x10;  x00; x00; x00; x01;
        x00; x00; x00; x00;  x00; x00; x00; x07])
      fresh_connection.
Proof.
  apply (request_body_and_status_ignored _ _
           (SMPPPDU.mk 1 5 7 [x75; x00]) (SMPPPDU.mk 1 0 7 []));
    reflexivity.
Defined.

(** Without a transport no handler returns normally: each one ends in a
    [write] on [None]. *)
Lemma dispatch_unconnected (pdu : SMPPPDU.t) (self : SMPPServerProtocol) :
  transport self = None ->
  exists e self',
    dispatch pdu self = (Raise e, self') /\ transport self' = None.
Proof.
  intros Ht.
  assert (Hwrite : forall response self0,
             transport self0 = None ->
             exists e self',
               (encoded <- lift (SMPPPDU.encode response) ;;
                transport_write encoded) self0 = (Raise e, self') /\
               transport self' = None).
  { intros response self0 Ht0. unfold bind, lift, transport_write.
    destruct (SMPPPDU.encode response); [ rewrite Ht0 |]; eauto. }
  assert (Hnack : forall status,
             exists e self',
               send_generic_nack pdu status self = (Raise e, self') /\
               transport self' = None).
  { intros status. apply (Hwrite _ self Ht). }
  assert (Hbind : forall b,
             exists e self',
               handle_bind pdu b self = (Raise e, self') /\
               transport self' = None).
  { intros b. unfold handle_bind, authenticate. eval_commands.
    unfold bind at 1. unfold ret at 1. cbv iota.
    unfold bind at 1. unfold assign_bound at 1. cbv iota.
    do 6 (unfold bind at 1; unfold lift at 1; cbv iota beta).
    unfold bind at 1. unfold lift at 1.
    match goal with
    | |- context [getitem Z.eqb ?d ?k] => destruct (getitem Z.eqb d k)
    end; [| eauto ].
    apply Hwrite. exact Ht. }
  destruct (Z.eq_dec (SMPPPDU.command_id pdu) 1) as [E | N1];
    [ rewrite (dispatch_bind_receiver pdu E); apply Hbind |].
  destruct (Z.eq_dec (SMPPPDU.command_id pdu) 2) as [E | N2];
    [ rewrite (dispatch_bind_transmitter pdu E); apply Hbind |].
  destruct (Z.eq_dec (SMPPPDU.command_id pdu) 9) as [E | N9];
    [ rewrite (dispatch_bind_transceiver pdu E); apply Hbind |].
  destruct (Z.eq_dec (SMPPPDU.command_id pdu) 4) as [E | N4].
  { rewrite (dispatch_submit_sm pdu E).
    unfold handle_submit_sm, get_bound. unfold bind at 1.
    destruct (bound self); cbv iota beta; cbn [negb]; [| apply Hnack ].
    eval_commands. unfold bind at 1. unfold lift at 1. cbv iota beta.
    apply Hwrite. exact Ht. }
  destruct (Z.eq_dec (SMPPPDU.command_id pdu) 6) as [E | N6].
  { rewrite (dispatch_unbind pdu E).
    unfold handle_unbind. eval_commands.
    unfold bind, lift, assign_bound, transport_write.
    destruct (SMPPPDU.encode _); cbn [transport set_bound];
      [ rewrite Ht |]; eauto. }
  rewrite dispatch_other by (unfold dispatched_commands, In; lia).
  apply Hnack.
Qed.

(** X18: on a protocol object whose [connection_made] has not run
    ([transport] is [None]), [data_received] raises [AttributeError] for every
    chunk: whatever fails first, the [except] branch then calls [close] on
    [None]. *)
Theorem data_received_unconnected (data : bytes)
  (self : SMPPServerProtocol) :
  transport self = None ->
  fst (data_received data self) = Raise AttributeError /\
  transport (snd (data_received data self)) = None.
Proof.
  intros Ht.
  assert (Hrun : exists self',
             data_received data self = (Raise AttributeError, self') /\
             transport self' = None).
  { unfold data_received, try_except, bind, lift.
    destruct (parse_pdu data) as [pdu | e].
    - destruct (dispatch_unconnected pdu self Ht) as (e & self' & -> & Ht').
      unfold transport_close. rewrite Ht'. eauto.
    - unfold transport_close. rewrite Ht. eauto. }
  destruct Hrun as (self' & -> & Ht'). split; [ reflexivity | exact Ht' ].
Qed.

Lemma data_received_unconnected_witness :
  fst (data_received bind_transceiver_7 __init__) = Raise AttributeError /\
  transport (snd (data_received bind_transceiver_7 __init__)) = None.
Proof.
  apply (data_received_unconnected bind_transceiver_7 __init__).
  reflexivity.
Defined.

(** * Whole connections *)

Lemma response_to_is_response (was_bound : bool) (pdu : SMPPPDU.t) :
  0x80000000 <= SMPPPDU.command_id (response_to was_bound pdu).
Proof.
  unfold response_to, is_bind.
  destruct (Z.eqb_spec (SMPPPDU.command_id pdu) 1) as [-> | _];
    [ cbn; lia |].
  destruct (Z.eqb_spec (SMPPPDU.command_id pdu) 2) as [-> | _];
    [ cbn; lia |].
  destruct (Z.eqb_spec (SMPPPDU.command_id pdu) 9) as [-> | _];
    [ cbn; lia |].
  destruct (SMPPPDU.command_id pdu =? 4), was_bound,
    (SMPPPDU.command_id pdu =? 6); cbn; lia.
Qed.

(** One chunk delivered to an open, connected session. *)
Lemma feed_parsed (data : bytes) (rest : list bytes) (pdu : SMPPPDU.t)
  (t : Transport) (self : SMPPServerProtocol) :
  transport self = Some t ->
  closing t = false ->
  parse_pdu data = Ok pdu ->
  exists encoded,
    SMPPPDU.encode (response_to (bound self) pdu) = Ok encoded /\
    parse_pdu encoded = Ok (response_to (bound self) pdu) /\
    feed (data :: rest) self
    = feed rest
        (set_transport
           (Some (t ++ calls_for (SMPPPDU.command_id pdu) encoded))
           (set_bound (bound_after (bound self) (SMPPPDU.command_id pdu))
              self)).
Proof.
  intros Ht Hopen Hparse.
  destruct (data_received_step data pdu t self Ht Hparse)
    as (encoded & Henc & Hback & Hrun).
  exists encoded. split; [ exact Henc |]. split; [ exact Hback |].
  cbn [feed]. unfold is_closing. rewrite Ht, Hopen, Hrun. reflexivity.
Qed.

(** X19: over a whole connection, whatever chunks arrive: the transport's
    log only grows, at most one [write] is made per chunk received, and every
    byte string written is the encoding of a PDU whose command id has the
    high bit set (the server never writes a request, and never writes bytes
    that are not a well-formed frame). *)
Theorem feed_writes_only_responses (chunks : list bytes) :
  forall (t : Transport) (self : SMPPServerProtocol),
    transport self = Some t ->
    exists new,
      transport (feed chunks self) = Some (t ++ new) /\
      (length (written new) <= length chunks)%nat /\
      forall encoded, In encoded (written new) ->
        exists response,
          parse_pdu encoded = Ok response /\
          SMPPPDU.encode response = Ok encoded /\
          0x80000000 <= SMPPPDU.command_id response.
Proof.
  induction chunks as [| data chunks IH ]; intros t self Ht.
  - exists []. rewrite app_nil_r. cbn. split; [ exact Ht |].
    split; [ lia | tauto ].
  - cbn [feed]. destruct (is_closing self).
    { exists []. rewrite app_nil_r. cbn. split; [ exact Ht |].
      split; [ lia | tauto ]. }
    assert (Hstep : exists new1,
               transport (snd (data_received data self)) = Some (t ++ new1) /\
               (length (written new1) <= 1)%nat /\
               forall encoded, In encoded (written new1) ->
                 exists response,
                   parse_pdu encoded = Ok response /\
                   SMPPPDU.encode response = Ok encoded /\
                   0x80000000 <= SMPPPDU.command_id response).
    { destruct (parse_pdu data) as [pdu | e] eqn:Hparse.
      - destruct (data_received_step data pdu t self Ht Hparse)
          as (encoded & Henc & Hback & ->).
        exists (calls_for (SMPPPDU.command_id pdu) encoded).
        rewrite written_calls_for. split; [ reflexivity |].
        split; [ cbn; lia |].
        intros w [<- | []]. exists (response_to (bound self) pdu).
        split; [ exact Hback |]. split; [ exact Henc |].
        apply response_to_is_response.
      - rewrite (data_received_unparsed _ _ _ _ Hparse Ht).
        exists [close]. split; [ reflexivity |]. cbn. split; [ lia | tauto ]. }
    destruct Hstep as (new1 & Ht1 & Hlen1 & Hall1).
    destruct (IH _ _ Ht1) as (new2 & Ht2 & Hlen2 & Hall2).
    exists (new1 ++ new2). rewrite app_assoc. split; [ exact Ht2 |].
    rewrite written_app, length_app. split; [ cbn [length]; lia |].
    intros w Hin. apply in_app_or in Hin. destruct Hin; auto.
Qed.

Lemma feed_writes_only_responses_witness :
  exists new,
    transport (feed [bind_transceiver_7; [xff]; unbind_7] fresh_connection)
    = Some ([] ++ new) /\
    (length (written new) <= length [bind_transceiver_7; [xff]; unbind_7])%nat
    /\
    forall encoded, In encoded (written new) ->
      exists response,
        parse_pdu encoded = Ok response /\
        SMPPPDU.encode response = Ok encoded /\
        0x80000000 <= SMPPPDU.command_id response.
Proof.
  apply (feed_writes_only_responses [bind_transceiver_7; [xff]; unbind_7] []
           fresh_connection).
  reflexivity.
Defined.

(** X20: a whole session.  On an open connection, a bind request, then a
    [submit_sm], then an [unbind], each in a chunk of its own, are answered
    in order by the matching [bind_*_resp], [submit_sm_resp] and
    [unbind_resp], each with status 0 and the sequence number of its own
    request; then the transport is closed, the session is unbound, and
    whatever arrives afterwards is not processed. *)
Theorem session_bind_submit_unbind (bind_data submit_data unbind_data : bytes)
  (bind_pdu submit_pdu unbind_pdu : SMPPPDU.t) (later : list bytes)
  (t : Transport) (self : SMPPServerProtocol) :
  transport self = Some t ->
  closing t = false ->
  parse_pdu bind_data = Ok bind_pdu ->
  In (SMPPPDU.command_id bind_pdu) [0x00000001; 0x00000002; 0x00000009] ->
  parse_pdu submit_data = Ok submit_pdu ->
  SMPPPDU.command_id submit_pdu = 0x00000004 ->
  parse_pdu unbind_data = Ok unbind_pdu ->
  SMPPPDU.command_id unbind_pdu = 0x00000006 ->
  exists bind_resp submit_sm_resp unbind_resp,
    parse_pdu bind_resp
    = Ok (SMPPPDU.mk (SMPPPDU.command_id bind_pdu + 0x80000000) 0
            (SMPPPDU.sequence_number bind_pdu) smppserver_nul) /\
    parse_pdu submit_sm_resp
    = Ok (SMPPPDU.mk 0x80000004 0 (SMPPPDU.sequence_number submit_pdu)
            message_id_123_nul) /\
    parse_pdu unbind_resp
    = Ok (SMPPPDU.mk 0x80000006 0 (SMPPPDU.sequence_number unbind_pdu) []) /\
    feed (bind_data :: submit_data :: unbind_data :: later) self
    = set_transport
        (Some (t ++ [write bind_resp; write submit_sm_resp;
                     write unbind_resp; close]))
        (set_bound false self).
Proof.
  intros Ht Hopen Hbind Hbind_id Hsubmit Hsubmit_id Hunbind Hunbind_id.
  assert (Hisbind : is_bind (SMPPPDU.command_id bind_pdu) = true).
  { destruct Hbind_id as [<- | [<- | [<- | []]]]; reflexivity. }
  assert (Hnot6 : (SMPPPDU.command_id bind_pdu =? 6) = false).
  { destruct Hbind_id as [<- | [<- | [<- | []]]]; reflexivity. }
  destruct (feed_parsed bind_data (submit_data :: unbind_data :: later)
              bind_pdu t self Ht Hopen Hbind) as (e1 & _ & Hback1 & ->).
  revert Hback1.
  unfold response_to at 1, bound_after at 1, calls_for at 1.
  rewrite Hisbind, Hnot6. intros Hback1.
  set (self1 := set_transport (Some (t ++ [write e1])) (set_bound true self)).
  assert (Hopen1 : closing (t ++ [write e1]) = false).
  { rewrite closing_app, Hopen. reflexivity. }
  destruct (feed_parsed submit_data (unbind_data :: later) submit_pdu
              (t ++ [write e1]) self1 eq_refl Hopen1 Hsubmit)
    as (e2 & _ & Hback2 & ->).
  revert Hback2.
  unfold response_to at 1, bound_after at 1, calls_for at 1, is_bind.
  rewrite Hsubmit_id. cbn [Z.eqb Pos.eqb orb bound self1 set_transport
                             set_bound].
  intros Hback2.
  set (self2 := set_transport (Some ((t ++ [write e1]) ++ [write e2]))
                  (set_bound true self1)).
  assert (Hopen2 : closing ((t ++ [write e1]) ++ [write e2]) = false).
  { rewrite closing_app, Hopen1. reflexivity. }
  destruct (feed_parsed unbind_data later unbind_pdu
              ((t ++ [write e1]) ++ [write e2]) self2 eq_refl Hopen2 Hunbind)
    as (e3 & _ & Hback3 & ->).
  revert Hback3.
  unfold response_to at 1, bound_after at 1, calls_for at 1, is_bind.
  rewrite Hunbind_id. cbn [Z.eqb Pos.eqb orb]. intros Hback3.
  exists e1, e2, e3.
  split; [ exact Hback1 |]. split; [ exact Hback2 |].
  split; [ exact Hback3 |].
  rewrite feed_closing.
  - unfold self2, self1, set_transport, set_bound. cbn.
    now rewrite <- !app_assoc.
  - unfold is_closing. cbn [transport set_transport].
    rewrite closing_app. cbn. apply orb_true_r.
Qed.

Lemma session_bind_submit_unbind_witness :
  exists bind_resp submit_sm_resp unbind_resp,
    parse_pdu bind_resp
    = Ok (SMPPPDU.mk (9 + 0x80000000) 0 7 smppserver_nul) /\
    parse_pdu submit_sm_resp
    = Ok (SMPPPDU.mk 0x80000004 0 7 message_id_123_nul) /\
    parse_pdu unbind_resp = Ok (SMPPPDU.mk 0x80000006 0 7 []) /\
    feed (bind_transceiver_7 :: submit_sm_7 :: unbind_7 :: [submit_sm_7])
      fresh_connection
    = set_transport
        (Some ([] ++ [write bind_resp; write submit_sm_resp;
                      write unbind_resp; close]))
        (set_bound false fresh_connection).
Proof.
  apply (session_bind_submit_unbind bind_transceiver_7 submit_sm_7 unbind_7
           (SMPPPDU.mk 9 0 7 []) (SMPPPDU.mk 4 0 7 [])
           (SMPPPDU.mk 6 0 7 []) [submit_sm_7] [] fresh_connection);
    try reflexivity.
  cbn. auto.
Defined.

(** X21: a chunk of fewer than 16 bytes ends the connection: whatever else is
    delivered before or after it, the transport is closed once the chunks
    have been fed. *)
Theorem short_chunk_ends_connection (chunks : list bytes) (short : bytes) :
  forall (t : Transport) (self : SMPPServerProtocol),
    transport self = Some t ->
    In short chunks ->
    len short < 16 ->
    is_closing (feed chunks self) = true.
Proof.
  induction chunks as [| data chunks IH ]; intros t self Ht Hin Hshort.
  - destruct Hin.
  - cbn [feed]. destruct (is_closing self) eqn:Hclosing; [ exact Hclosing |].
    destruct (data_received_connected data t self Ht) as (new & Hrun & Hc & _).
    destruct Hin as [-> | Hin].
    + rewrite (parse_pdu_short _ Hshort) in Hc.
      rewrite feed_closing; rewrite Hrun; unfold is_closing; cbn;
        rewrite closing_app, Hc; apply orb_true_r.
    + rewrite Hrun. cbn [snd].
      eapply IH; [ reflexivity | exact Hin | exact Hshort ].
Qed.

Lemma short_chunk_ends_connection_witness :
  is_closing (feed [bind_transceiver_7; [x00; x01]; submit_sm_7]
                fresh_connection) = true.
Proof.
  apply (short_chunk_ends_connection
           [bind_transceiver_7; [x00; x01]; submit_sm_7] [x00; x01] []
           fresh_connection).
  - reflexivity.
  - cbn. auto.
  - unfold len. simpl. lia.
Defined.
